(** * An ML pipeline driver and its basic-cleaning stage

    A shallow embedding of the two Python programs of the repository:

    - [main.py], the Hydra/MLflow pipeline driver ([Module Main]);
    - [src/basic_cleaning/run.py], the pandas/W&B cleaning stage
      ([Module BasicCleaning]).

    Both programs are straight-line scripts around external services
    (MLflow, Weights & Biases, pandas, argparse).  The scripts themselves
    are translated line by line into a state-and-exception monad; what the
    external libraries decide (whether an MLflow run succeeds, what a W&B
    reference resolves to, which strings pandas reads as dates, what
    the clock shows, which strings Python reads as floats) enters as the
    fields of interface classes, so every statement holds for every
    behaviour of these services. *)

From Stdlib Require Import Floats ZArith Lia Ascii String Uint63.
From stdpp Require Import gmap strings list.

Local Open Scope string_scope.

(** ** Effects: mutable state and exceptions *)

Module Eff.

(** The outcome of running a Python statement: a value, or a raised
    exception. *)
Inductive result (E A : Type) : Type :=
| Ok (a : A)
| Raise (e : E).
Arguments Ok {E A} a.
Arguments Raise {E A} e.

(** A computation over a state [S] that may raise an [E]: the state
    reached is kept in both cases, as side effects performed before a
    [raise] stay performed. *)
Definition M (S E A : Type) : Type := S -> result E A * S.

Definition ret {S E A} (a : A) : M S E A := fun s => (Ok a, s).

Definition bind {S E A B} (m : M S E A) (k : A -> M S E B) : M S E B :=
  fun s =>
    match m s with
    | (Ok a, s') => k a s'
    | (Raise e, s') => (Raise e, s')
    end.

Definition raise {S E A} (e : E) : M S E A := fun s => (Raise e, s).

Definition modify {S E} (f : S -> S) : M S E unit := fun s => (Ok tt, f s).

(** [if c: body] *)
Definition when {S E} (c : bool) (body : M S E unit) : M S E unit :=
  if c then body else ret tt.

(** [try: body finally: cleanup], the shape of a [with] block whose
    context manager releases a resource on every exit path. *)
Definition finally {S E A} (body : M S E A) (cleanup : S -> S) : M S E A :=
  fun s => let '(r, s') := body s in (r, cleanup s').

(** Unwrap the result of an external call that may fail. *)
Definition unwrap {S E A} (o : option A) (e : E) : M S E A :=
  match o with
  | Some a => ret a
  | None => raise e
  end.

End Eff.

Import Eff.

Declare Scope eff_scope.
Delimit Scope eff_scope with eff.
Notation "x <- m ;; k" := (bind m (fun x => k))
  (at level 100, m at next level, right associativity) : eff_scope.
Notation "m ;; k" := (bind m (fun _ => k))
  (at level 100, right associativity) : eff_scope.

(** ** The fragment of Python's built-ins the scripts use *)

Module Py.

(** [s.split(c)] for a one-character separator [c]: the pieces between
    the separators, empty pieces included; never the empty list
    ([''.split(',') == ['']]). *)
Fixpoint split (c : ascii) (s : string) : list string :=
  match s with
  | EmptyString => [EmptyString]
  | String a s' =>
      if Ascii.eqb a c then EmptyString :: split c s'
      else match split c s' with
           | w :: ws => String a w :: ws
           | [] => [String a EmptyString]
           end
  end.

(** [x in l] on a list of strings. *)
Definition contains (x : string) (l : list string) : bool :=
  bool_decide (x ∈ l).

(** [s.endswith('/')] *)
Fixpoint endswith_sep (s : string) : bool :=
  match s with
  | EmptyString => false
  | String a EmptyString => Ascii.eqb a "/"
  | String _ s' => endswith_sep s'
  end.

(** [os.path.join(a, b)] of [posixpath], for two components. *)
Definition os_path_join (a b : string) : string :=
  if String.prefix "/" b then b
  else if String.eqb a "" || endswith_sep a then a +:+ b
  else a +:+ "/" +:+ b.

End Py.

(** ** [main.py]: the pipeline driver *)

Module Main.

(** A scalar of the Hydra configuration, or a literal the driver passes
    as a stage parameter. *)
Inductive value : Type :=
| VStr (s : string)
| VInt (n : Z)
| VFloat (x : float)
| VBool (b : bool)
| VNull.

(** The configuration keys [go] reads; [config['etl']['sample']] is
    [etl_sample config], and so on.  The sub-mapping
    [modeling.random_forest] is kept as its list of items. *)
Record Config : Type := {
  main_project_name : string;
  main_experiment_name : string;
  main_steps : string;
  etl_sample : value;
  etl_min_price : value;
  etl_max_price : value;
  data_check_kl_threshold : value;
  data_check_min_price : value;
  data_check_max_price : value;
  modeling_test_size : value;
  modeling_val_size : value;
  modeling_random_seed : value;
  modeling_stratify_by : value;
  modeling_max_tfidf_features : value;
  modeling_output_artifact : value;
  modeling_random_forest : list (string * value)
}.

(** One call of [mlflow.run(uri, entry_point, env_manager=..., parameters=...)]. *)
Record Invocation : Type := {
  uri : string;
  entry_point : string;
  env_manager : option string;
  parameters : list (string * value)
}.

(** What the driver changes: the process environment, MLflow's tracking
    settings, the files it writes, and the calls of [mlflow.run] it has
    made so far, each under the stage name that guards it. *)
Record State : Type := {
  environ : gmap string string;
  tracking_uri : option string;
  experiment : option string;
  files : gmap string (list (string * value));
  runs : list (string * Invocation)
}.

(** [mlflow.run] raises when the stage's process fails. *)
Inductive exn : Type :=
| ExecutionException (stage : string).

(** Where the script runs. *)
Class Host : Type := {
  (** [os.path.abspath(os.path.dirname(__file__))] *)
  root_path : string;
  (** [Path(__file__).resolve().parent] *)
  project_root : string;
  (** [hydra.utils.get_original_cwd()] *)
  original_cwd : string;
  (** the directory [tempfile.TemporaryDirectory()] creates *)
  tmp_dir : string
}.

(** The external runner: whether the stage process started by a call
    succeeds, given the calls already made in this run. *)
Class Mlflow : Type := {
  run_succeeds : list (string * Invocation) -> Invocation -> bool
}.

(** [_steps], with [test_regression_model] commented out in the source. *)
Definition _steps : list string :=
  [ "download";
    "basic_cleaning";
    "data_check";
    "data_split";
    "train_random_forest" ].

(** The names [go] tests for, in the order of its [if] statements. *)
Definition stage_names : list string :=
  [ "download";
    "basic_cleaning";
    "data_check";
    "data_split";
    "train_random_forest";
    "test_regression_model" ].

Section Driver.
Context `{!Host} `{!Mlflow}.

Local Open Scope eff_scope.

Definition setenv (k v : string) : M State exn unit :=
  modify (fun s =>
    {| environ := <[k := v]> (environ s); tracking_uri := tracking_uri s;
       experiment := experiment s; files := files s; runs := runs s |}).

Definition set_tracking_uri (u : string) : M State exn unit :=
  modify (fun s =>
    {| environ := environ s; tracking_uri := Some u;
       experiment := experiment s; files := files s; runs := runs s |}).

Definition set_experiment (e : string) : M State exn unit :=
  modify (fun s =>
    {| environ := environ s; tracking_uri := tracking_uri s;
       experiment := Some e; files := files s; runs := runs s |}).

(** [with open(path, "w") as f: json.dump(container, f)] *)
Definition json_dump (path : string) (container : list (string * value))
  : M State exn unit :=
  modify (fun s =>
    {| environ := environ s; tracking_uri := tracking_uri s;
       experiment := experiment s; files := <[path := container]> (files s);
       runs := runs s |}).

(** [mlflow.run(...)] under the guard [if stage in active_steps]: the
    call is recorded, then it returns or raises as the runner decides. *)
Definition mlflow_run (stage : string) (i : Invocation) : M State exn unit :=
  fun s =>
    let s' := {| environ := environ s; tracking_uri := tracking_uri s;
                 experiment := experiment s; files := files s;
                 runs := runs s ++ [(stage, i)] |} in
    if run_succeeds (runs s) i then (Ok tt, s')
    else (Raise (ExecutionException stage), s').

(** Leaving the [with tempfile.TemporaryDirectory()] block removes the
    directory and what is in it. *)
Definition inside (dir path : string) : bool :=
  String.prefix (if Py.endswith_sep dir then dir else dir +:+ "/") path.

Definition remove_tmp_dir (s : State) : State :=
  {| environ := environ s; tracking_uri := tracking_uri s;
     experiment := experiment s;
     files := filter (fun kv => inside tmp_dir kv.1 = false) (files s);
     runs := runs s |}.

Definition wandb_store : string :=
  "adamjhenderson95-western-governors-university/".

(** The body of the [with] block: one guarded [mlflow.run] per stage. *)
Definition run_steps (config : Config) (active_steps : list string)
  : M State exn unit :=
  when (Py.contains "download" active_steps)
    (mlflow_run "download"
       {| uri := Py.os_path_join (Py.os_path_join project_root "components") "get_data";
          entry_point := "main";
          env_manager := Some "conda";
          parameters :=
            [ ("sample", etl_sample config);
              ("artifact_name", VStr "sample.csv");
              ("artifact_type", VStr "raw_data");
              ("artifact_description", VStr "Raw file as downloaded") ] |}) ;;
  when (Py.contains "basic_cleaning" active_steps)
    (mlflow_run "basic_cleaning"
       {| uri := Py.os_path_join (Py.os_path_join original_cwd "src") "basic_cleaning";
          entry_point := "main";
          env_manager := None;
          parameters :=
            [ ("input_artifact", VStr "sample.csv:latest");
              ("output_artifact", VStr "clean_sample.csv");
              ("output_type", VStr "clean_sample");
              ("output_description", VStr "Data with outliers and null values removed");
              ("min_price", etl_min_price config);
              ("max_price", etl_max_price config) ] |}) ;;
  when (Py.contains "data_check" active_steps)
    (mlflow_run "data_check"
       {| uri := Py.os_path_join (Py.os_path_join original_cwd "src") "data_check";
          entry_point := "main";
          env_manager := None;
          parameters :=
            [ ("csv", VStr (wandb_store +:+ "project-ml-pipeline-src_basic_cleaning/clean_sample.csv:latest"));
              ("ref", VStr (wandb_store +:+ "project-ml-pipeline-src_basic_cleaning/clean_sample.csv:reference"));
              ("kl_threshold", data_check_kl_threshold config);
              ("min_price", data_check_min_price config);
              ("max_price", data_check_max_price config) ] |}) ;;
  when (Py.contains "data_split" active_steps)
    (mlflow_run "data_split"
       {| uri := Py.os_path_join root_path "components/train_val_test_split";
          entry_point := "main";
          env_manager := None;
          parameters :=
            [ ("input", VStr (wandb_store +:+ "project-ml-pipeline-src_basic_cleaning/clean_sample.csv:latest"));
              ("test_size", modeling_test_size config);
              ("random_seed", modeling_random_seed config);
              ("stratify_by", modeling_stratify_by config) ] |}) ;;
  when (Py.contains "train_random_forest" active_steps)
    (let rf_config_path := Py.os_path_join tmp_dir "rf_config.json" in
     json_dump rf_config_path (modeling_random_forest config) ;;
     mlflow_run "train_random_forest"
       {| uri := Py.os_path_join root_path "src/train_random_forest";
          entry_point := "main";
          env_manager := None;
          parameters :=
            [ ("trainval_artifact", VStr (wandb_store +:+ "nyc_airbnb/trainval_data.csv:v0"));
              ("val_size", modeling_val_size config);
              ("random_seed", modeling_random_seed config);
              ("stratify_by", modeling_stratify_by config);
              ("rf_config", VStr rf_config_path);
              ("max_tfidf_features", modeling_max_tfidf_features config);
              ("output_artifact", modeling_output_artifact config) ] |}) ;;
  when (Py.contains "test_regression_model" active_steps)
    (mlflow_run "test_regression_model"
       {| uri := Py.os_path_join root_path "components/test_regression_model";
          entry_point := "main";
          env_manager := None;
          parameters :=
            [ ("mlflow_model", VStr "random_forest_export:prod");
              ("test_dataset", VStr "test_data.csv:latest") ] |}).

(** [steps_par.split(",") if steps_par != "all" else _steps] *)
Definition active_steps_of (steps_par : string) : list string :=
  if bool_decide (steps_par ≠ "all") then Py.split "," steps_par else _steps.

Definition go (config : Config) : M State exn unit :=
  setenv "WANDB_PROJECT" (main_project_name config) ;;
  setenv "WANDB_RUN_GROUP" (main_experiment_name config) ;;
  let mlruns_path := Py.os_path_join root_path "mlruns" in
  set_tracking_uri ("file:///" +:+ mlruns_path) ;;
  set_experiment (main_experiment_name config) ;;
  let steps_par := main_steps config in
  let active_steps := active_steps_of steps_par in
  finally (run_steps config active_steps) remove_tmp_dir.

End Driver.

(** The stage names of the calls made, in the order they were made. *)
Definition invoked (s : State) : list string := (runs s).*1.

(** A fresh process: nothing set, nothing written, nothing run. *)
Definition initial : State :=
  {| environ := ∅; tracking_uri := None; experiment := None;
     files := ∅; runs := [] |}.

End Main.

(** ** [src/basic_cleaning/run.py]: the cleaning stage *)

Module BasicCleaning.

(** *** The table

    [pd.read_csv] yields a [DataFrame]; the model keeps it row by row.
    [read_csv] gives a numeric column the dtype [int64] when every cell
    is a whole number, and [float64] (IEEE 754 binary64, a missing value
    being NaN) when a cell has a decimal point or an exponent or is
    missing.  The prices of the data set are whole numbers, so a [price]
    cell is of either kind, and the table keeps it as [read_csv] read it
    and as [to_csv] writes it back; [longitude] and [latitude] are
    [float64] columns.  A cell of the [last_review] column is a missing
    value or the text read from the file before [pd.to_datetime], and a
    timestamp (nanoseconds since the epoch) or NaT after it.  The values
    of the remaining columns are carried along untouched. *)
Inductive number : Type :=
| Int64 (z : Z)
| Float64 (x : float).

Inductive review : Type :=
| Missing
| Text (s : string)
| Date (t : Z)
| NaT.

Record Row : Type := {
  price : number;
  longitude : float;
  latitude : float;
  last_review : review;
  other : list string
}.

Abbreviation DataFrame := (list Row).

(** [args], the [argparse.Namespace]: an attribute is [None] when its
    flag was not given. *)
Record Namespace : Type := {
  input_artifact : option string;
  output_artifact : option string;
  output_type : option string;
  output_description : option string;
  min_price : option float;
  max_price : option float
}.

(** [wandb.Artifact(name, type=..., description=...)] and the files
    added to it. *)
Record Artifact : Type := {
  art_name : option string;
  art_type : option string;
  art_description : option string;
  art_files : list (string * DataFrame)
}.

(** What the stage changes: the W&B run it opens and configures, the
    files it writes in its working directory, the artifacts it logs. *)
Record State : Type := {
  job_type : option string;
  run_config : option Namespace;
  fs : gmap string DataFrame;
  logged : list Artifact
}.

Inductive exn : Type :=
| ArtifactNotFound (ref : option string)
| ReadError (path : string)
| DateParseError (s : string)
| TypeError
| ValueError (name : string)
| FileNotFoundError (path : string)
| UploadError.

(** What pandas reads a string as: an instant (nanoseconds since the
    epoch), or null for the words it takes for a missing date ([NaT]
    and the like, which [read_csv] leaves as text). *)
Inductive parsed : Type :=
| Instant (t : Z)
| Null.

(** pandas' date parsing.  [parse_datetime_at now s] is what the general
    parser reads the string [s] as when the clock shows [now] ([None]
    where it cannot read [s] as a date): pandas reads the words [now]
    and [today] against the clock.  Since version 2, [to_datetime] first
    guesses one format for the whole column, from the first cell that is
    not null and that the guess does not pass over ([guess_skips]: the
    words for null, [now] and [today]); [guess_datetime_format] is the
    format guessed from a string ([None] when it recognises none), and
    the column is then parsed against that format: [strptime_at now fmt s]
    is what [s] is read as against [fmt], which may differ from what the
    general parser makes of it (a day read as a month) and is [None]
    when [s] is not of the format.  A string the general parser cannot
    read is of no format ([strptime_refuses]).  Version 1 is the
    instance whose [guess_datetime_format] is always [None]. *)
Class Pandas : Type := {
  parse_datetime_at : Z -> string -> option parsed;
  guess_skips : string -> bool;
  guess_datetime_format : string -> option string;
  strptime_at : Z -> string -> string -> option parsed;
  strptime_refuses :
    forall now fmt s, parse_datetime_at now s = None -> strptime_at now fmt s = None
}.

(** The clock of the machine, in nanoseconds since the epoch, when the
    stage converts the column (the conversion is taken to be
    instantaneous). *)
Class Clock : Type := {
  time_ns : Z
}.

(** The W&B service: the local path [run.use_artifact(ref).file()]
    downloads to (or a failure), whether [wandb.Artifact] accepts a
    name, type and description (it raises on a name with a character
    other than letters, digits, [_], [-] and [.], and some versions on
    certain types), and whether logging an artifact succeeds. *)
Class Wandb : Type := {
  use_artifact_file : option string -> option string;
  artifact_accepted : string -> option string -> option string -> bool;
  log_artifact_ok : Artifact -> bool
}.

(** The files on disk when the stage runs: the table [pd.read_csv]
    reads at a path, or a failure. *)
Class Disk : Type := {
  read_csv_file : string -> option DataFrame
}.

(** *** pandas operations *)

(** An [int64] element as [float64]: the binary64 number nearest to it,
    ties to even. *)
Definition int64_to_float64 (z : Z) : float :=
  SF2Prim (binary_normalize FloatOps.prec FloatOps.emax z 0 false).

(** The element of a numeric column as numpy compares it with a Python
    [float]: an [int64] column is converted to [float64] first. *)
Definition as_float64 (n : number) : float :=
  match n with
  | Int64 z => int64_to_float64 z
  | Float64 x => x
  end.

(** [series >= v] and [series <= v] for one element: IEEE comparisons,
    false on NaN; against [None] pandas answers false everywhere. *)
Definition ge_scalar (x : float) (v : option float) : bool :=
  match v with
  | Some y => PrimFloat.leb y x
  | None => false
  end.

Definition le_scalar (x : float) (v : option float) : bool :=
  match v with
  | Some y => PrimFloat.leb x y
  | None => false
  end.

(** [Series.between(left, right)], inclusive on both sides:
    [lmask = self >= left; rmask = self <= right; lmask & rmask]. *)
Definition between (col : list float) (left right : option float) : list bool :=
  let lmask := (fun x => ge_scalar x left) <$> col in
  let rmask := (fun x => le_scalar x right) <$> col in
  zip_with andb lmask rmask.

(** [a & b] on boolean series. *)
Definition series_and (a b : list bool) : list bool := zip_with andb a b.

(** [df[idx].copy()] for a boolean mask [idx]. *)
Fixpoint getitem (df : DataFrame) (idx : list bool) : DataFrame :=
  match df, idx with
  | r :: df', b :: idx' => if b then r :: getitem df' idx' else getitem df' idx'
  | _, _ => []
  end.

Definition set_last_review (r : Row) (v : review) : Row :=
  {| price := price r; longitude := longitude r; latitude := latitude r;
     last_review := v; other := other r |}.

(** [df['last_review'] = col] *)
Definition setitem_last_review (df : DataFrame) (col : list review) : DataFrame :=
  zip_with set_last_review df col.

Definition of_parsed (p : parsed) : review :=
  match p with
  | Instant t => Date t
  | Null => NaT
  end.

Section Stage.
Context `{!Pandas} `{!Clock} `{!Wandb} `{!Disk}.

Local Open Scope eff_scope.

(** The general parser, at the time of the run. *)
Definition parse_datetime (s : string) : option parsed :=
  parse_datetime_at time_ns s.

(** [pd.to_datetime(x)] on one cell, with the default [errors='raise']:
    a missing value becomes NaT, a string is parsed or the call raises,
    a timestamp stays. *)
Definition to_datetime1 (c : review) : result exn review :=
  match c with
  | Missing => Ok NaT
  | Text s =>
      match parse_datetime s with
      | Some p => Ok (of_parsed p)
      | None => Raise (DateParseError s)
      end
  | Date t => Ok (Date t)
  | NaT => Ok NaT
  end.

(** Parsing against one format, at the time of the run. *)
Definition strptime (fmt s : string) : option parsed :=
  strptime_at time_ns fmt s.

Definition strptime1 (fmt : string) (c : review) : result exn review :=
  match c with
  | Missing => Ok NaT
  | Text s =>
      match strptime fmt s with
      | Some p => Ok (of_parsed p)
      | None => Raise (DateParseError s)
      end
  | Date t => Ok (Date t)
  | NaT => Ok NaT
  end.

(** The first cell of a column that is not null and that the guess does
    not pass over. *)
Fixpoint first_non_null (col : list review) : option review :=
  match col with
  | [] => None
  | Missing :: col' | NaT :: col' => first_non_null col'
  | Text s :: col' => if guess_skips s then first_non_null col' else Some (Text s)
  | Date t :: _ => Some (Date t)
  end.

(** Cell after cell: the first cell that does not parse raises. *)
Fixpoint cells (f : review -> result exn review) (col : list review)
    : result exn (list review) :=
  match col with
  | [] => Ok []
  | c :: col' =>
      match f c with
      | Raise e => Raise e
      | Ok d =>
          match cells f col' with
          | Raise e => Raise e
          | Ok ds => Ok (d :: ds)
          end
      end
  end.

Definition array_strptime (fmt : string) (col : list review) : result exn (list review) :=
  cells (strptime1 fmt) col.

Definition array_to_datetime (col : list review) : result exn (list review) :=
  cells to_datetime1 col.

(** The format guessed from that cell, when it is a string. *)
Definition _guess_datetime_format_for_array (col : list review) : option string :=
  match first_non_null col with
  | Some (Text s) => guess_datetime_format s
  | _ => None
  end.

(** [pd.to_datetime(series)]: against the guessed format when there is
    one, and string by string with the general parser otherwise. *)
Definition to_datetime (col : list review) : result exn (list review) :=
  match _guess_datetime_format_for_array col with
  | Some fmt => array_strptime fmt col
  | None => array_to_datetime col
  end.

Definition lift {A} (r : result exn A) : M State exn A := fun s => (r, s).

Definition wandb_init (jt : string) : M State exn unit :=
  modify (fun s =>
    {| job_type := Some jt; run_config := run_config s;
       fs := fs s; logged := logged s |}).

Definition run_config_update (args : Namespace) : M State exn unit :=
  modify (fun s =>
    {| job_type := job_type s; run_config := Some args;
       fs := fs s; logged := logged s |}).

(** [run.use_artifact(ref).file()] *)
Definition use_artifact (ref : option string) : M State exn string :=
  unwrap (use_artifact_file ref) (ArtifactNotFound ref).

(** [pd.read_csv(path)] *)
Definition read_csv (path : string) : M State exn DataFrame :=
  unwrap (read_csv_file path) (ReadError path).

(** [df.to_csv(path, index=False)] *)
Definition to_csv (df : DataFrame) (path : string) : M State exn unit :=
  modify (fun s =>
    {| job_type := job_type s; run_config := run_config s;
       fs := <[path := df]> (fs s); logged := logged s |}).

(** [wandb.Artifact(name, type=..., description=...)]: the constructor
    matches the name against a pattern, which raises [TypeError] on
    [None], and raises [ValueError] on what it refuses. *)
Definition wandb_Artifact (name type description : option string)
    : M State exn Artifact :=
  match name with
  | None => raise TypeError
  | Some n =>
      if artifact_accepted n type description
      then ret {| art_name := Some n; art_type := type;
                  art_description := description; art_files := [] |}
      else raise (ValueError n)
  end.

(** [artifact.add_file(path)] *)
Definition add_file (a : Artifact) (path : string) : M State exn Artifact :=
  content <- (fun s => unwrap (fs s !! path) (FileNotFoundError path) s) ;;
  ret {| art_name := art_name a; art_type := art_type a;
         art_description := art_description a;
         art_files := art_files a ++ [(path, content)] |}.

(** [run.log_artifact(artifact)] *)
Definition log_artifact (a : Artifact) : M State exn unit :=
  fun s =>
    if log_artifact_ok a
    then (Ok tt, {| job_type := job_type s; run_config := run_config s;
                    fs := fs s; logged := logged s ++ [a] |})
    else (Raise UploadError, s).

#[warnings="-inexact-float"]
Definition go (args : Namespace) : M State exn unit :=
  wandb_init "basic_cleaning" ;;
  run_config_update args ;;
  artifact_local_path <- use_artifact (input_artifact args) ;;
  df <- read_csv artifact_local_path ;;
  let min_price := min_price args in
  let max_price := max_price args in
  let idx := between (as_float64 <$> (price <$> df)) min_price max_price in
  let df := getitem df idx in
  dates <- lift (to_datetime (last_review <$> df)) ;;
  let df := setitem_last_review df dates in
  let idx :=
    series_and (between (longitude <$> df) (Some (-74.25)%float) (Some (-73.50)%float))
               (between (latitude <$> df) (Some 40.5%float) (Some 41.2%float)) in
  let df := getitem df idx in
  to_csv df "clean_sample.csv" ;;
  artifact <-
    wandb_Artifact (output_artifact args) (output_type args) (output_description args) ;;
  artifact <- add_file artifact "clean_sample.csv" ;;
  log_artifact artifact.

End Stage.

(** *** The command line

    The [__main__] block declares six options with [add_argument] and
    calls [parse_args].  No call passes [required=] or [default=], so
    argparse's own defaults apply: [required=False] and [default=None].

    Of argparse the model covers the command lines whose tokens are the
    declared option strings, [-h], [--help], and tokens that do not start
    with a dash; on these all versions of argparse agree.  Abbreviated
    options, [--flag=value], [--] and values that start with a dash are
    left out: [parse_args] answers [None] on them. *)

Inductive argtype : Type := TStr | TFloat.

Record Action : Type := {
  option_string : string;
  dest : string;
  type : argtype;
  required : bool;
  help : string
}.

(** [dest] of an option [--some-name]: the leading dashes stripped,
    inner dashes replaced by underscores. *)
Fixpoint lstrip_dash (s : string) : string :=
  match s with
  | String "-" s' => lstrip_dash s'
  | _ => s
  end.

Fixpoint dash_to_underscore (s : string) : string :=
  match s with
  | EmptyString => EmptyString
  | String a s' => String (if Ascii.eqb a "-" then "_"%char else a) (dash_to_underscore s')
  end.

(** [parser.add_argument(option_string, type=type, help=help)] *)
Definition add_argument (option_string : string) (type : argtype) (help : string)
  : Action :=
  {| option_string := option_string;
     dest := dash_to_underscore (lstrip_dash option_string);
     type := type;
     required := false;
     help := help |}.

Definition parser : list Action :=
  [ add_argument "--input_artifact" TStr "Name of the input artifact to be cleaned";
    add_argument "--output_artifact" TStr "Name of the output artifact to save cleaned data";
    add_argument "--output_type" TStr "Type of the output artifact (e.g., 'clean_sample')";
    add_argument "--output_description" TStr "Description for the output artifact";
    add_argument "--min_price" TFloat "Minimum price value to filter the dataset";
    add_argument "--max_price" TFloat "Maximum price value to filter the dataset" ].

(** Python's [float(s)] on a string: the number read, or [None] where
    [float] raises [ValueError]. *)
Class Python : Type := {
  py_float : string -> option float
}.

Inductive argval : Type :=
| AStr (s : string)
| AFloat (x : float).

Inductive outcome : Type :=
| Parsed (ns : Namespace)
| SystemExit (code : Z).

(** Every [dest] starts as [None]. *)
Definition empty_namespace : Namespace :=
  {| input_artifact := None; output_artifact := None; output_type := None;
     output_description := None; min_price := None; max_price := None |}.

(** [setattr(namespace, dest, value)] *)
Definition setattr (ns : Namespace) (dest : string) (v : argval) : Namespace :=
  match v with
  | AStr s =>
      if String.eqb dest "input_artifact" then
        {| input_artifact := Some s; output_artifact := output_artifact ns;
           output_type := output_type ns; output_description := output_description ns;
           min_price := min_price ns; max_price := max_price ns |}
      else if String.eqb dest "output_artifact" then
        {| input_artifact := input_artifact ns; output_artifact := Some s;
           output_type := output_type ns; output_description := output_description ns;
           min_price := min_price ns; max_price := max_price ns |}
      else if String.eqb dest "output_type" then
        {| input_artifact := input_artifact ns; output_artifact := output_artifact ns;
           output_type := Some s; output_description := output_description ns;
           min_price := min_price ns; max_price := max_price ns |}
      else if String.eqb dest "output_description" then
        {| input_artifact := input_artifact ns; output_artifact := output_artifact ns;
           output_type := output_type ns; output_description := Some s;
           min_price := min_price ns; max_price := max_price ns |}
      else ns
  | AFloat x =>
      if String.eqb dest "min_price" then
        {| input_artifact := input_artifact ns; output_artifact := output_artifact ns;
           output_type := output_type ns; output_description := output_description ns;
           min_price := Some x; max_price := max_price ns |}
      else if String.eqb dest "max_price" then
        {| input_artifact := input_artifact ns; output_artifact := output_artifact ns;
           output_type := output_type ns; output_description := output_description ns;
           min_price := min_price ns; max_price := Some x |}
      else ns
  end.

(** [getattr(namespace, dest)] for the six attributes. *)
Definition getattr (ns : Namespace) (dest : string) : option argval :=
  if String.eqb dest "input_artifact" then AStr <$> input_artifact ns
  else if String.eqb dest "output_artifact" then AStr <$> output_artifact ns
  else if String.eqb dest "output_type" then AStr <$> output_type ns
  else if String.eqb dest "output_description" then AStr <$> output_description ns
  else if String.eqb dest "min_price" then AFloat <$> min_price ns
  else if String.eqb dest "max_price" then AFloat <$> max_price ns
  else None.

(** How argparse reads one token of the command line. *)
Inductive token : Type :=
| Flag (a : Action)
| Help
| Plain
| Outside.

Definition classify (actions : list Action) (tok : string) : token :=
  if String.eqb tok "-h" || String.eqb tok "--help" then Help
  else match List.find (fun a => String.eqb (option_string a) tok) actions with
       | Some a => Flag a
       | None => if String.prefix "-" tok then Outside else Plain
       end.

Definition in_fragment (actions : list Action) (tok : string) : bool :=
  match classify actions tok with
  | Outside => false
  | _ => true
  end.

Section Cli.
Context `{!Python}.

(** The [type=] conversion of an option's value. *)
Definition convert (t : argtype) (s : string) : option argval :=
  match t with
  | TStr => Some (AStr s)
  | TFloat => AFloat <$> py_float s
  end.

(** Left to right over the command line.  [-h] prints the help and
    exits with 0.  An option takes the next token as its value, and it
    is an error (exit status 2) when there is none, when the next token
    is itself an option, or when the conversion rejects it.  A token
    that belongs to no option is remembered ([extras]) and reported at
    the end, after the check that every required option was [seen]. *)
Fixpoint consume (actions : list Action) (argv : list string)
    (ns : Namespace) (seen : list string) (extras : bool) : outcome :=
  match argv with
  | [] =>
      if existsb (fun a => required a && negb (Py.contains (dest a) seen)) actions
      then SystemExit 2
      else if extras then SystemExit 2
      else Parsed ns
  | tok :: rest =>
      match classify actions tok with
      | Help => SystemExit 0
      | Plain | Outside => consume actions rest ns seen true
      | Flag a =>
          match rest with
          | [] => SystemExit 2
          | v :: rest' =>
              match classify actions v with
              | Plain =>
                  match convert (type a) v with
                  | None => SystemExit 2
                  | Some x =>
                      consume actions rest' (setattr ns (dest a) x) (dest a :: seen) extras
                  end
              | _ => SystemExit 2
              end
          end
      end
  end.

(** [parser.parse_args(argv)], on the command lines the model covers. *)
Definition parse_args (argv : list string) : option outcome :=
  if forallb (in_fragment parser) argv
  then Some (consume parser argv empty_namespace [] false)
  else None.

Context `{!Pandas} `{!Clock} `{!Wandb} `{!Disk}.

(** The [__main__] block: the exit status of the process and the state
    it leaves.  An exception that reaches the top level ends the process
    with status 1. *)
Definition main (argv : list string) (s : State) : option (Z * State) :=
  match parse_args argv with
  | None => None
  | Some (SystemExit code) => Some (code, s)
  | Some (Parsed args) =>
      match go args s with
      | (Ok _, s') => Some (0%Z, s')
      | (Raise _, s') => Some (1%Z, s')
      end
  end.

End Cli.

(** A fresh process: no run, nothing written, nothing logged. *)
Definition initial : State :=
  {| job_type := None; run_config := None; fs := ∅; logged := [] |}.

End BasicCleaning.

(** ** An example environment

    Concrete instances of the interfaces, for the examples that follow:
    a host, runners, a pandas that reads ISO calendar dates
    ([YYYY-MM-DD], the format of the data set's [last_review] column),
    dates written with slashes and the words [now] and [NaT], two
    clocks, a [float] that reads unsigned decimal integers, and a small
    W&B store with a few raw tables. *)

Module Demo.

Definition digit (a : ascii) : option Z :=
  let n := Z.of_N (N_of_ascii a) in
  if ((48 <=? n) && (n <=? 57))%Z then Some (n - 48)%Z else None.

Fixpoint digits (s : string) (acc : Z) : option Z :=
  match s with
  | EmptyString => Some acc
  | String a s' => d ← digit a; digits s' (10 * acc + d)%Z
  end.

(** An unsigned decimal numeral of exactly [n] digits. *)
Definition numeral (n : nat) (s : string) : option Z :=
  if decide (String.length s = n) then digits s 0 else None.

Definition leap (y : Z) : bool :=
  ((y mod 4 =? 0) && negb (y mod 100 =? 0) || (y mod 400 =? 0))%Z.

Definition days_in_month (y m : Z) : Z :=
  if (m =? 2)%Z then (if leap y then 29 else 28)%Z
  else if ((m =? 4) || (m =? 6) || (m =? 9) || (m =? 11))%Z then 30%Z
  else 31%Z.

(** Days from 1970-01-01 to the civil date [y-m-d]. *)
Definition days_from_civil (y m d : Z) : Z :=
  let y' := (if m <=? 2 then y - 1 else y)%Z in
  let era := (y' / 400)%Z in
  let yoe := (y' - era * 400)%Z in
  let doy := ((153 * (if m >? 2 then m - 3 else m + 9) + 2) / 5 + d - 1)%Z in
  let doe := (yoe * 365 + yoe / 4 - yoe / 100 + doy)%Z in
  (era * 146097 + doe - 719468)%Z.

(** Midnight of a date written [YYYY-MM-DD], in nanoseconds since the
    epoch, for the years a 64-bit nanosecond timestamp holds. *)
Definition iso_date (s : string) : option Z :=
  match Py.split "-" s with
  | [ys; ms; ds] =>
      y ← numeral 4 ys; m ← numeral 2 ms; d ← numeral 2 ds;
      if ((1678 <=? y) && (y <=? 2261) && (1 <=? m) && (m <=? 12)
          && (1 <=? d) && (d <=? days_in_month y m))%Z
      then Some (days_from_civil y m d * 86400000000000)%Z
      else None
  | _ => None
  end.

(** Midnight of a date written [MM/DD/YYYY]. *)
Definition us_date (s : string) : option Z :=
  match Py.split "/" s with
  | [ms; ds; ys] => iso_date (ys ++ "-" ++ ms ++ "-" ++ ds)
  | _ => None
  end.

(** Midnight of a date written [DD/MM/YYYY]. *)
Definition eu_date (s : string) : option Z :=
  match Py.split "/" s with
  | [ds; ms; ys] => iso_date (ys ++ "-" ++ ms ++ "-" ++ ds)
  | _ => None
  end.

(** The characters of an artifact name: letters, digits, [_], [-], [.]. *)
Definition name_char (a : ascii) : bool :=
  let n := Z.of_N (N_of_ascii a) in
  ((48 <=? n) && (n <=? 57) || (65 <=? n) && (n <=? 90) || (97 <=? n) && (n <=? 122)
   || (n =? 95) || (n =? 45) || (n =? 46))%Z.

(** [float] on unsigned decimal integers of at most 15 digits, which
    binary64 holds exactly. *)
Definition decimal (s : string) : option float :=
  if decide (1 <= String.length s <= 15)%nat
  then (fun z => PrimFloat.of_uint63 (Uint63.of_Z z)) <$> digits s 0
  else None.

Definition host : Main.Host :=
  {| Main.root_path := "/home/user/pipeline";
     Main.project_root := "/home/user/pipeline";
     Main.original_cwd := "/home/user/pipeline";
     Main.tmp_dir := "/tmp/tmpk3v9x2" |}.

(** Every stage succeeds. *)
Definition runner : Main.Mlflow :=
  {| Main.run_succeeds := fun _ _ => true |}.

(** The download stage fails. *)
Definition failing_runner : Main.Mlflow :=
  {| Main.run_succeeds := fun _ i =>
       negb (String.eqb (Main.uri i) "/home/user/pipeline/components/get_data") |}.

Definition config (steps : string) : Main.Config :=
  {| Main.main_project_name := "nyc_airbnb";
     Main.main_experiment_name := "development";
     Main.main_steps := steps;
     Main.etl_sample := Main.VStr "sample1.csv";
     Main.etl_min_price := Main.VInt 10;
     Main.etl_max_price := Main.VInt 350;
     Main.data_check_kl_threshold := Main.VFloat 0.25;
     Main.data_check_min_price := Main.VInt 10;
     Main.data_check_max_price := Main.VInt 350;
     Main.modeling_test_size := Main.VFloat 0.25;
     Main.modeling_val_size := Main.VFloat 0.25;
     Main.modeling_random_seed := Main.VInt 42;
     Main.modeling_stratify_by := Main.VStr "neighbourhood_group";
     Main.modeling_max_tfidf_features := Main.VInt 5;
     Main.modeling_output_artifact := Main.VStr "random_forest_export";
     Main.modeling_random_forest :=
       [ ("n_estimators", Main.VInt 100); ("max_depth", Main.VInt 15) ] |}.

(** A small general parser: the word [now] is the clock's time, [NaT]
    is null, a calendar date is midnight of the day; of a date written
    with slashes the month is read first when that gives a date, and the
    day otherwise. *)
Definition read_date (now : Z) (s : string) : option BasicCleaning.parsed :=
  if String.eqb s "now" then Some (BasicCleaning.Instant now)
  else if String.eqb s "NaT" then Some BasicCleaning.Null
  else match iso_date s, us_date s, eu_date s with
       | Some t, _, _ | None, Some t, _ | None, None, Some t =>
           Some (BasicCleaning.Instant t)
       | None, None, None => None
       end.

(** The format of a date as the general parser reads it. *)
Definition guess_format (s : string) : option string :=
  match iso_date s, us_date s, eu_date s with
  | Some _, _, _ => Some "%Y-%m-%d"
  | None, Some _, _ => Some "%m/%d/%Y"
  | None, None, Some _ => Some "%d/%m/%Y"
  | None, None, None => None
  end.

(** The same strings against one of the three formats. *)
Definition read_date_as (now : Z) (fmt s : string) : option BasicCleaning.parsed :=
  if String.eqb s "now" then Some (BasicCleaning.Instant now)
  else if String.eqb s "NaT" then Some BasicCleaning.Null
  else match iso_date s, us_date s, eu_date s with
       | None, None, None => None
       | i, u, e =>
           BasicCleaning.Instant <$>
             (if String.eqb fmt "%Y-%m-%d" then i
              else if String.eqb fmt "%m/%d/%Y" then u
              else if String.eqb fmt "%d/%m/%Y" then e
              else None)
       end.

(** A pandas of version 2. *)
Definition pandas : BasicCleaning.Pandas :=
  {| BasicCleaning.parse_datetime_at := read_date;
     BasicCleaning.guess_skips := fun s => String.eqb s "now" || String.eqb s "NaT";
     BasicCleaning.guess_datetime_format := guess_format;
     BasicCleaning.strptime_at := read_date_as;
     BasicCleaning.strptime_refuses :=
       ltac:(intros now fmt s; unfold read_date, read_date_as;
             destruct (String.eqb s "now"); [discriminate|];
             destruct (String.eqb s "NaT"); [discriminate|];
             destruct (iso_date s), (us_date s), (eu_date s);
             try discriminate; reflexivity) |}.

(** The same parser in a pandas of version 1, which guesses no format. *)
Definition pandas1 : BasicCleaning.Pandas :=
  {| BasicCleaning.parse_datetime_at := read_date;
     BasicCleaning.guess_skips := fun _ => false;
     BasicCleaning.guess_datetime_format := fun _ => None;
     BasicCleaning.strptime_at := fun _ _ _ => None;
     BasicCleaning.strptime_refuses := fun _ _ _ _ => eq_refl |}.

(** 2023-11-14 22:13:20 UTC, and one minute later. *)
Definition clock : BasicCleaning.Clock :=
  {| BasicCleaning.time_ns := 1700000000000000000 |}.

Definition later : BasicCleaning.Clock :=
  {| BasicCleaning.time_ns := 1700000060000000000 |}.

Definition python : BasicCleaning.Python :=
  {| BasicCleaning.py_float := decimal |}.

Definition listing (price : BasicCleaning.number) (longitude latitude : float)
    (last_review : BasicCleaning.review) (name : string) : BasicCleaning.Row :=
  {| BasicCleaning.price := price; BasicCleaning.longitude := longitude;
     BasicCleaning.latitude := latitude; BasicCleaning.last_review := last_review;
     BasicCleaning.other := [name] |}.

(** Prices 10, 100 and 600 in Manhattan; a listing far west of the box;
    listings with a missing price and a missing latitude.  With a price
    missing, the column is a [float64] column. *)
Definition sample : list BasicCleaning.Row :=
  [ listing (BasicCleaning.Float64 10) (-73.75) 40.75
      (BasicCleaning.Text "2018-10-19") "cheap";
    listing (BasicCleaning.Float64 100) (-73.75) 40.75
      (BasicCleaning.Text "2019-05-21") "fair";
    listing (BasicCleaning.Float64 600) (-73.75) 40.75 BasicCleaning.Missing "dear";
    listing (BasicCleaning.Float64 120) (-80.5) 40.75
      (BasicCleaning.Text "2019-01-01") "far";
    listing (BasicCleaning.Float64 nan) (-73.75) 40.75 BasicCleaning.Missing "unpriced";
    listing (BasicCleaning.Float64 90) (-73.75) nan BasicCleaning.Missing "unplaced" ].

(** A table with one review date that is no date; its prices are whole
    numbers, an [int64] column. *)
Definition dirty_sample : list BasicCleaning.Row :=
  [ listing (BasicCleaning.Int64 100) (-73.75) 40.75
      (BasicCleaning.Text "2019-05-21") "fair";
    listing (BasicCleaning.Int64 150) (-73.75) 40.75
      (BasicCleaning.Text "not a date") "odd" ].

(** The same with the date put right. *)
Definition repaired_sample : list BasicCleaning.Row :=
  [ listing (BasicCleaning.Int64 100) (-73.75) 40.75
      (BasicCleaning.Text "2019-05-21") "fair";
    listing (BasicCleaning.Int64 150) (-73.75) 40.75
      (BasicCleaning.Text "2019-06-30") "odd" ].

(** Whole-number prices, one of them 2^53 + 1. *)
Definition whole_sample : list BasicCleaning.Row :=
  [ listing (BasicCleaning.Int64 100) (-73.75) 40.75
      (BasicCleaning.Text "2019-05-21") "fair";
    listing (BasicCleaning.Int64 9007199254740993) (-73.75) 40.75
      (BasicCleaning.Text "2019-06-30") "palace" ].

(** A review date given as the word [now]. *)
Definition now_sample : list BasicCleaning.Row :=
  [ listing (BasicCleaning.Int64 100) (-73.75) 40.75 (BasicCleaning.Text "now") "fresh" ].

(** Two review dates, each a date, in two formats. *)
Definition mixed_sample : list BasicCleaning.Row :=
  [ listing (BasicCleaning.Int64 100) (-73.75) 40.75
      (BasicCleaning.Text "2019-05-21") "fair";
    listing (BasicCleaning.Int64 110) (-73.75) 40.75
      (BasicCleaning.Text "06/30/2019") "other" ].

(** Two review dates written with slashes, the first with the day
    first beyond doubt. *)
Definition slashed_sample : list BasicCleaning.Row :=
  [ listing (BasicCleaning.Int64 100) (-73.75) 40.75
      (BasicCleaning.Text "13/02/2019") "fair";
    listing (BasicCleaning.Int64 110) (-73.75) 40.75
      (BasicCleaning.Text "01/02/2019") "other" ].

Definition wandb : BasicCleaning.Wandb :=
  {| BasicCleaning.use_artifact_file := fun ref =>
       match ref with
       | Some "sample.csv:latest" => Some "artifacts/sample.csv:v0/sample1.csv"
       | Some "dirty.csv:latest" => Some "artifacts/dirty.csv:v0/dirty.csv"
       | Some "whole.csv:latest" => Some "artifacts/whole.csv:v0/whole.csv"
       | Some "now.csv:latest" => Some "artifacts/now.csv:v0/now.csv"
       | Some "mixed.csv:latest" => Some "artifacts/mixed.csv:v0/mixed.csv"
       | Some "slashed.csv:latest" => Some "artifacts/slashed.csv:v0/slashed.csv"
       | _ => None
       end;
     BasicCleaning.artifact_accepted := fun name type _ =>
       negb (String.eqb name "") && forallb name_char (list_ascii_of_string name)
       && bool_decide (is_Some type);
     BasicCleaning.log_artifact_ok := fun _ => true |}.

Definition disk : BasicCleaning.Disk :=
  {| BasicCleaning.read_csv_file := fun path =>
       if String.eqb path "artifacts/sample.csv:v0/sample1.csv" then Some sample
       else if String.eqb path "artifacts/dirty.csv:v0/dirty.csv" then Some dirty_sample
       else if String.eqb path "artifacts/whole.csv:v0/whole.csv" then Some whole_sample
       else if String.eqb path "artifacts/now.csv:v0/now.csv" then Some now_sample
       else if String.eqb path "artifacts/mixed.csv:v0/mixed.csv" then Some mixed_sample
       else if String.eqb path "artifacts/slashed.csv:v0/slashed.csv"
       then Some slashed_sample
       else None |}.

(** A disk on which the dirty file was put right. *)
Definition repaired_disk : BasicCleaning.Disk :=
  {| BasicCleaning.read_csv_file := fun path =>
       if String.eqb path "artifacts/dirty.csv:v0/dirty.csv" then Some repaired_sample
       else BasicCleaning.read_csv_file (Disk := disk) path |}.

Definition args (input : string) (lo hi : float) : BasicCleaning.Namespace :=
  {| BasicCleaning.input_artifact := Some input;
     BasicCleaning.output_artifact := Some "clean_sample.csv";
     BasicCleaning.output_type := Some "clean_sample";
     BasicCleaning.output_description := Some "Data with outliers and null values removed";
     BasicCleaning.min_price := Some lo;
     BasicCleaning.max_price := Some hi |}.

(** The arguments of a second run on the same input: another output
    name, no description, the same thresholds. *)
Definition args_again : BasicCleaning.Namespace :=
  {| BasicCleaning.input_artifact := Some "sample.csv:latest";
     BasicCleaning.output_artifact := Some "clean_sample_2.csv";
     BasicCleaning.output_type := Some "clean_sample";
     BasicCleaning.output_description := None;
     BasicCleaning.min_price := Some 50%float;
     BasicCleaning.max_price := Some 500%float |}.

(** The arguments of a run whose command line gives no
    [--output_artifact]. *)
Definition args_no_output_artifact : BasicCleaning.Namespace :=
  {| BasicCleaning.input_artifact := Some "sample.csv:latest";
     BasicCleaning.output_artifact := None;
     BasicCleaning.output_type := Some "clean_sample";
     BasicCleaning.output_description := None;
     BasicCleaning.min_price := Some 50%float;
     BasicCleaning.max_price := Some 500%float |}.

(** The arguments of a run whose command line gives no [--min_price]. *)
Definition args_no_min_price : BasicCleaning.Namespace :=
  {| BasicCleaning.input_artifact := Some "sample.csv:latest";
     BasicCleaning.output_artifact := Some "clean_sample.csv";
     BasicCleaning.output_type := Some "clean_sample";
     BasicCleaning.output_description := None;
     BasicCleaning.min_price := None;
     BasicCleaning.max_price := Some 500%float |}.

(** What cleaning [sample] between 50 and 500 leaves. *)
Definition clean_sample : list BasicCleaning.Row :=
  [ listing (BasicCleaning.Float64 100) (-73.75) 40.75
      (BasicCleaning.Date 1558396800000000000) "fair" ].

End Demo.

Local Open Scope list_scope.

(** * The vocabulary of the statements *)

Import BasicCleaning.

Section DriverVocabulary.
Context `{!Main.Host} `{!Main.Mlflow}.

(** The stage names of [active], in the order [go] tests for them. *)
Definition selected (active : list string) : list string :=
  filter (fun n => n ∈ active) Main.stage_names.

(** [m] calls the runner for the stages [names], in this order, and
    stops at the first call that fails: the calls it makes are a prefix
    of [names], all of [names] when it returns normally, which it does
    when no call fails. *)
Definition traces (m : M Main.State Main.exn unit) (names : list string) : Prop :=
  forall s,
    exists done,
      Main.invoked (m s).2 = Main.invoked s ++ done
      /\ done `prefix_of` names
      /\ ((m s).1 = Ok tt -> done = names)
      /\ ((forall h i, Main.run_succeeds h i = true) -> (m s).1 = Ok tt).

End DriverVocabulary.

Section CleaningVocabulary.
Context `{!Pandas} `{!Clock} `{!Wandb} `{!Disk}.

(** The price filter and the bounding-box filter, row by row; the price
    is compared as [float64]. *)
Definition in_price_range (args : Namespace) (r : Row) : bool :=
  ge_scalar (as_float64 (price r)) (min_price args)
  && le_scalar (as_float64 (price r)) (max_price args).

#[warnings="-inexact-float"]
Definition in_box (r : Row) : bool :=
  (ge_scalar (longitude r) (Some (-74.25)%float)
   && le_scalar (longitude r) (Some (-73.50)%float))
  && (ge_scalar (latitude r) (Some 40.5%float)
      && le_scalar (latitude r) (Some 41.2%float)).

(** The columns of a row other than [last_review]. *)
Definition untouched (r : Row) : number * float * float * list string :=
  (price r, longitude r, latitude r, other r).

(** What [to_datetime] makes of a cell of the column [col]: the cell
    read against the format guessed for the column, or by the general
    parser when none is guessed. *)
Definition to_datetime_cell (col : list review) (c : review) : result exn review :=
  match _guess_datetime_format_for_array col with
  | Some fmt => strptime1 fmt c
  | None => to_datetime1 c
  end.

(** [r'] is [r] with its [last_review] read as a date, in the column
    [col]. *)
Definition converted (col : list review) (r r' : Row) : Prop :=
  untouched r = untouched r'
  /\ to_datetime_cell col (last_review r) = Ok (last_review r').

(** The table the stage loads: the file the input reference resolves to,
    as [read_csv] reads it. *)
Definition loaded (args : Namespace) : option DataFrame :=
  use_artifact_file (input_artifact args) ≫= read_csv_file.

(** The stage ran to completion on [args] from state [s], and [out] is
    the table it wrote to [clean_sample.csv] and published. *)
Definition cleaned_output (args : Namespace) (s : State) (out : DataFrame) : Prop :=
  (go args s).1 = Ok tt
  /\ fs (go args s).2 !! "clean_sample.csv" = Some out
  /\ exists art,
       logged (go args s).2 = logged s ++ [art]
       /\ art_files art = [("clean_sample.csv", out)].

Definition started (args : Namespace) (s : State) : State :=
  {| job_type := Some "basic_cleaning"; run_config := Some args;
     fs := fs s; logged := logged s |}.

Definition written (args : Namespace) (s : State) (out : DataFrame) : State :=
  {| job_type := Some "basic_cleaning"; run_config := Some args;
     fs := <["clean_sample.csv" := out]> (fs s); logged := logged s |}.

Definition published (args : Namespace) (out : DataFrame) : Artifact :=
  {| art_name := output_artifact args; art_type := output_type args;
     art_description := output_description args;
     art_files := [("clean_sample.csv", out)] |}.

End CleaningVocabulary.

(** pandas reads the string [t] alike at the times of two runs: the
    general parser does, and so does the parser against any format. *)
Definition read_alike {P : Pandas} (K1 K2 : Clock) (t : string) : Prop :=
  parse_datetime_at (@time_ns K1) t = parse_datetime_at (@time_ns K2) t
  /\ forall fmt, strptime_at (@time_ns K1) fmt t = strptime_at (@time_ns K2) fmt t.

Section CommandLineVocabulary.
Context `{!Python}.

(** The command line that gives each option of [given] with its value. *)
Definition argv_of (given : list (Action * string)) : list string :=
  given ≫= (fun av => [option_string av.1; av.2]).

(** Storing one given option in the namespace. *)
Definition store (ns : Namespace) (av : Action * string) : Namespace :=
  match convert (type av.1) av.2 with
  | Some x => setattr ns (dest av.1) x
  | None => ns
  end.

(** A declared option with a value argparse takes for it. *)
Definition well_given (av : Action * string) : Prop :=
  av.1 ∈ parser /\ classify parser av.2 = Plain /\ is_Some (convert (type av.1) av.2).

End CommandLineVocabulary.

Section DriverVocabularyMore.
Context `{!Main.Host} `{!Main.Mlflow}.

(** [config] with another [main.steps]. *)
Definition with_steps (config : Main.Config) (steps : string) : Main.Config :=
  {| Main.main_project_name := Main.main_project_name config;
     Main.main_experiment_name := Main.main_experiment_name config;
     Main.main_steps := steps;
     Main.etl_sample := Main.etl_sample config;
     Main.etl_min_price := Main.etl_min_price config;
     Main.etl_max_price := Main.etl_max_price config;
     Main.data_check_kl_threshold := Main.data_check_kl_threshold config;
     Main.data_check_min_price := Main.data_check_min_price config;
     Main.data_check_max_price := Main.data_check_max_price config;
     Main.modeling_test_size := Main.modeling_test_size config;
     Main.modeling_val_size := Main.modeling_val_size config;
     Main.modeling_random_seed := Main.modeling_random_seed config;
     Main.modeling_stratify_by := Main.modeling_stratify_by config;
     Main.modeling_max_tfidf_features := Main.modeling_max_tfidf_features config;
     Main.modeling_output_artifact := Main.modeling_output_artifact config;
     Main.modeling_random_forest := Main.modeling_random_forest config |}.


(** [m] leaves the process environment and the MLflow settings alone. *)
Definition keeps_settings (m : M Main.State Main.exn unit) : Prop :=
  forall s,
    Main.environ (m s).2 = Main.environ s
    /\ Main.tracking_uri (m s).2 = Main.tracking_uri s
    /\ Main.experiment (m s).2 = Main.experiment s.

(** [m] leaves the files outside the temporary directory alone. *)
Definition keeps_files (m : M Main.State Main.exn unit) : Prop :=
  forall s,
    filter (fun kv => Main.inside Main.tmp_dir kv.1 = false) (Main.files (m s).2)
    = filter (fun kv => Main.inside Main.tmp_dir kv.1 = false) (Main.files s).

(** The state in which [go] enters its [with] block. *)
Definition prepared (config : Main.Config) (s : Main.State) : Main.State :=
  {| Main.environ :=
       <["WANDB_RUN_GROUP" := Main.main_experiment_name config]>
         (<["WANDB_PROJECT" := Main.main_project_name config]> (Main.environ s));
     Main.tracking_uri := Some ("file:///" +:+ Py.os_path_join Main.root_path "mlruns");
     Main.experiment := Some (Main.main_experiment_name config);
     Main.files := Main.files s;
     Main.runs := Main.runs s |}.

(** Where [go] writes the random-forest configuration. *)
Definition rf_config_path : string := Py.os_path_join Main.tmp_dir "rf_config.json".

(** [m] keeps the random-forest configuration file once it is there,
    and whenever it calls the training stage the file is there, holding
    [modeling.random_forest], and the call names it. *)
Definition hands_config (config : Main.Config) (m : M Main.State Main.exn unit) : Prop :=
  forall s,
    (Main.files s !! rf_config_path = Some (Main.modeling_random_forest config) ->
     Main.files (m s).2 !! rf_config_path = Some (Main.modeling_random_forest config))
    /\ exists new,
         Main.runs (m s).2 = Main.runs s ++ new
         /\ forall call,
              ("train_random_forest", call) ∈ new ->
              Main.files (m s).2 !! rf_config_path
              = Some (Main.modeling_random_forest config)
              /\ ("rf_config", Main.VStr rf_config_path) ∈ Main.parameters call.

End DriverVocabularyMore.

(** Case analysis on the comparisons inside [SFcompare]. *)
Ltac order_cases :=
  repeat match goal with
  | H : context [Z.compare ?a ?b] |- _ => destruct (Z.compare_spec a b); subst
  | H : context [PosDef.Pos.compare_cont Eq ?a ?b] |- _ =>
      change (PosDef.Pos.compare_cont Eq a b) with (Pos.compare a b) in *;
      destruct (Pos.compare_spec a b); subst
  end.

(** The six cases of [a ∈ parser]. *)
Ltac parser_cases H :=
  unfold parser in H; rewrite !elem_of_cons, elem_of_nil in H;
  destruct H as [H|[H|[H|[H|[H|[H|[]]]]]]]; subst.


(** * Properties of the driver *)

Section DriverProperties.
Context `{!Main.Host} `{!Main.Mlflow}.

Lemma traces_ret : traces (ret tt) [].
Proof.
  intros s. exists []. cbn. rewrite app_nil_r. done.
Qed.

Lemma traces_json_dump path c : traces (Main.json_dump path c) [].
Proof.
  intros s. exists []. cbn. rewrite app_nil_r. done.
Qed.

Lemma traces_mlflow_run stage i : traces (Main.mlflow_run stage i) [stage].
Proof.
  intros s. exists [stage]. unfold Main.mlflow_run, Main.invoked.
  destruct (Main.run_succeeds (Main.runs s) i) eqn:E; cbn;
    rewrite fmap_app; split_and!; try done.
  intros Hall. rewrite Hall in E. discriminate.
Qed.

Lemma traces_bind m1 m2 l1 l2 :
  traces m1 l1 -> traces m2 l2 -> traces (bind m1 (fun _ => m2)) (l1 ++ l2).
Proof.
  intros T1 T2 s. unfold bind.
  destruct (T1 s) as (d1 & E1 & P1 & F1 & A1).
  destruct (m1 s) as [[[]|e] s1]; cbn in *.
  - destruct (T2 s1) as (d2 & E2 & P2 & F2 & A2).
    exists (d1 ++ d2). rewrite E2, E1, (F1 eq_refl), app_assoc.
    split_and!; [done | by apply prefix_app | | done].
    intros Hok. by rewrite (F2 Hok).
  - exists d1. split_and!; [done | by apply prefix_app_r | done |].
    intros Hall. by specialize (A1 Hall).
Qed.

Lemma traces_when (c : bool) m l :
  traces m l -> traces (when c m) (if c then l else []).
Proof.
  destruct c; [done | intros _; apply traces_ret].
Qed.

Lemma selected_guards active :
  (if Py.contains "download" active then ["download"] else [])
  ++ (if Py.contains "basic_cleaning" active then ["basic_cleaning"] else [])
  ++ (if Py.contains "data_check" active then ["data_check"] else [])
  ++ (if Py.contains "data_split" active then ["data_split"] else [])
  ++ (if Py.contains "train_random_forest" active
      then [] ++ ["train_random_forest"] else [])
  ++ (if Py.contains "test_regression_model" active
      then ["test_regression_model"] else [])
  = selected active.
Proof.
  unfold selected, Main.stage_names, Py.contains.
  rewrite !filter_cons, filter_nil.
  repeat case_bool_decide; repeat case_decide; done.
Qed.

Lemma run_steps_traces config active :
  traces (Main.run_steps config active) (selected active).
Proof.
  rewrite <- selected_guards. unfold Main.run_steps.
  repeat apply traces_bind; apply traces_when;
    try apply traces_mlflow_run.
  apply traces_bind; [apply traces_json_dump | apply traces_mlflow_run].
Qed.

Lemma finally_run {S E A} (body : M S E A) (cleanup : S -> S) s :
  finally body cleanup s = ((body s).1, cleanup (body s).2).
Proof. unfold finally. by destruct (body s). Qed.

(** [go] is [run_steps] between a prelude and a cleanup that leave the
    record of calls alone. *)
Lemma go_run_steps config s :
  exists s0,
    Main.runs s0 = Main.runs s
    /\ Main.go config s =
       ((Main.run_steps config (Main.active_steps_of (Main.main_steps config)) s0).1,
        Main.remove_tmp_dir
          (Main.run_steps config (Main.active_steps_of (Main.main_steps config)) s0).2).
Proof.
  unfold Main.go, bind, Main.setenv, Main.set_tracking_uri,
    Main.set_experiment, modify.
  eexists. split; [| apply finally_run]. done.
Qed.

Lemma go_traces config :
  traces (Main.go config) (selected (Main.active_steps_of (Main.main_steps config))).
Proof.
  intros s. destruct (go_run_steps config s) as (s0 & Hruns & ->).
  destruct (run_steps_traces config
              (Main.active_steps_of (Main.main_steps config)) s0)
    as (d & E & P & F & A).
  exists d. cbn. unfold Main.invoked in *. cbn. by rewrite E, Hruns.
Qed.

Lemma selected_ext a b :
  (forall n, n ∈ a <-> n ∈ b) -> selected a = selected b.
Proof.
  intros Hab. unfold selected. apply list_filter_iff. exact Hab.
Qed.

Lemma selected_subseteq active n :
  n ∈ selected active -> n ∈ active /\ n ∈ Main.stage_names.
Proof. unfold selected. rewrite list_elem_of_filter. done. Qed.

Lemma stage_names_known n :
  n ∈ Main.stage_names <->
  n = "download" \/ n = "basic_cleaning" \/ n = "data_check"
  \/ n = "data_split" \/ n = "train_random_forest" \/ n = "test_regression_model".
Proof.
  unfold Main.stage_names. rewrite !elem_of_cons, elem_of_nil. tauto.
Qed.

Lemma contains_filter_known n active :
  n ∈ Main.stage_names ->
  Py.contains n (filter (fun m => m ∈ Main.stage_names) active) = Py.contains n active.
Proof.
  intros Hn. unfold Py.contains. apply bool_decide_ext.
  rewrite list_elem_of_filter. tauto.
Qed.

Lemma run_steps_ignores_unknown config active s :
  Main.run_steps config active s
  = Main.run_steps config (filter (fun n => n ∈ Main.stage_names) active) s.
Proof.
  unfold Main.run_steps.
  rewrite !contains_filter_known by (apply stage_names_known; tauto).
  done.
Qed.

Lemma run_steps_nothing config active s :
  (forall n, n ∈ active -> n ∉ Main.stage_names) ->
  Main.run_steps config active s = (Ok tt, s).
Proof.
  intros Hnone.
  assert (forall n, n ∈ Main.stage_names -> Py.contains n active = false) as Hc.
  { intros n Hn. unfold Py.contains. apply bool_decide_eq_false.
    intros Hin. exact (Hnone n Hin Hn). }
  unfold Main.run_steps.
  rewrite !Hc by (apply stage_names_known; tauto).
  done.
Qed.

(** C3: when [main.steps] is the literal ["all"], the active steps are
    [_steps], which leaves [test_regression_model] out although [go]
    knows the name; whatever the runner does, the calls [go] makes are
    an initial part of [_steps], and none of them is for
    [test_regression_model]. *)
Theorem C3_all_excludes_test_regression_model config s :
  Main.main_steps config = "all" ->
  "test_regression_model" ∈ Main.stage_names
  /\ ("test_regression_model" ∉ Main.active_steps_of (Main.main_steps config))
  /\ exists done,
       Main.invoked (Main.go config s).2 = Main.invoked s ++ done
       /\ done `prefix_of` Main._steps
       /\ "test_regression_model" ∉ done.
Proof.
  intros Hall.
  assert ("test_regression_model" ∉ Main._steps) as Hout.
  { unfold Main._steps. rewrite !not_elem_of_cons. split_and!; try done.
    apply not_elem_of_nil. }
  split; [apply stage_names_known; tauto|].
  split; [by rewrite Hall|].
  destruct (go_traces config s) as (d & E & P & _).
  rewrite Hall in P. exists d. split; [done|].
  assert (selected (Main.active_steps_of "all") = Main._steps) as Hsel
    by (vm_compute; reflexivity).
  rewrite Hsel in P. split; [done|].
  intros Hin. destruct P as [k Hk]. apply Hout. rewrite Hk.
  apply elem_of_app. by left.
Qed.

(** C4: when [main.steps] lists [download] and [data_split], in either
    order, [go] calls the runner for [download] and then for
    [data_split] and for nothing else: the calls made are an initial
    part of [download; data_split] whatever the runner does, both of
    them when [go] returns normally, and [go] returns normally when no
    call fails. *)
Theorem C4_explicit_pair_runs_in_canonical_order config s :
  Py.split "," (Main.main_steps config) ≡ₚ ["download"; "data_split"] ->
  exists done,
    Main.invoked (Main.go config s).2 = Main.invoked s ++ done
    /\ done `prefix_of` ["download"; "data_split"]
    /\ ((Main.go config s).1 = Ok tt -> done = ["download"; "data_split"])
    /\ ((forall h i, Main.run_succeeds h i = true) -> (Main.go config s).1 = Ok tt).
Proof.
  intros Hperm.
  assert (Main.active_steps_of (Main.main_steps config)
          = Py.split "," (Main.main_steps config)) as Hact.
  { unfold Main.active_steps_of. case_bool_decide as Hne; [done|].
    rewrite Hne in Hperm. apply Permutation_length in Hperm. discriminate. }
  assert (selected (Main.active_steps_of (Main.main_steps config))
          = ["download"; "data_split"]) as Hsel.
  { rewrite Hact.
    rewrite (selected_ext _ ["download"; "data_split"]); [by vm_compute|].
    intros n. by rewrite Hperm. }
  destruct (go_traces config s) as (d & E & P & F & A).
  rewrite Hsel in P, F. by exists d.
Qed.

(** C7: for an explicit list in [main.steps], the names [go] does not
    know change nothing (the steps run as if they were not listed), every
    call made is for a known name of the list, and when the list holds no
    known name [go] makes no call and returns normally. *)
Theorem C7_unknown_names_ignored config s :
  Main.main_steps config <> "all" ->
  (forall s0,
     Main.run_steps config (Py.split "," (Main.main_steps config)) s0
     = Main.run_steps config
         (filter (fun n => n ∈ Main.stage_names)
                 (Py.split "," (Main.main_steps config))) s0)
  /\ (exists done,
        Main.invoked (Main.go config s).2 = Main.invoked s ++ done
        /\ forall n, n ∈ done ->
             n ∈ Py.split "," (Main.main_steps config) /\ n ∈ Main.stage_names)
  /\ ((forall n, n ∈ Py.split "," (Main.main_steps config) -> n ∉ Main.stage_names) ->
      (Main.go config s).1 = Ok tt /\ Main.runs (Main.go config s).2 = Main.runs s).
Proof.
  intros Hne.
  assert (Main.active_steps_of (Main.main_steps config)
          = Py.split "," (Main.main_steps config)) as Hact.
  { unfold Main.active_steps_of. by rewrite bool_decide_eq_true_2. }
  split; [intros s0; apply run_steps_ignores_unknown|]. split.
  - destruct (go_traces config s) as (d & E & [k Hk] & _).
    exists d. split; [done|]. intros n Hn. rewrite <- Hact.
    apply selected_subseteq. rewrite Hk. apply elem_of_app. by left.
  - intros Hnone. destruct (go_run_steps config s) as (s0 & Hruns & ->).
    rewrite Hact, run_steps_nothing by done. cbn. done.
Qed.

End DriverProperties.

(** [str.split] keeps empty pieces and does not strip blanks. *)
Example split_examples :
  Py.split "," "download,data_split" = ["download"; "data_split"]
  /\ Py.split "," "all" = ["all"]
  /\ Py.split "," "" = [""]
  /\ Py.split "," "download, data_split," = ["download"; " data_split"; ""].
Proof. split_and!; reflexivity. Qed.

(** The two steps as listed in the configuration, and a step the list
    names twice. *)
Example go_pair_as_listed :
  Main.invoked
    (@Main.go Demo.host Demo.runner (Demo.config "download,data_split") Main.initial).2
  = ["download"; "data_split"]
  /\ Main.invoked
       (@Main.go Demo.host Demo.runner
          (Demo.config "data_split,download,data_split") Main.initial).2
     = ["download"; "data_split"].
Proof. split; vm_compute; reflexivity. Qed.

(** With every stage succeeding, ["all"] runs the five steps of [_steps]. *)
Example go_all_runs_steps :
  Main.invoked (@Main.go Demo.host Demo.runner (Demo.config "all") Main.initial).2
  = Main._steps.
Proof. vm_compute. reflexivity. Qed.

(** Naming the excluded stage runs it. *)
Example go_explicit_test_regression_model :
  Main.invoked
    (@Main.go Demo.host Demo.runner (Demo.config "test_regression_model") Main.initial).2
  = ["test_regression_model"].
Proof. vm_compute. reflexivity. Qed.

(** A failing download stops the run before [data_split]. *)
Example go_download_fails :
  (@Main.go Demo.host Demo.failing_runner (Demo.config "download,data_split")
     Main.initial).1
  = Raise (Main.ExecutionException "download")
  /\ Main.invoked
       (@Main.go Demo.host Demo.failing_runner (Demo.config "download,data_split")
          Main.initial).2
     = ["download"].
Proof. split; vm_compute; reflexivity. Qed.

(** The training stage's configuration file is gone when [go] returns. *)
Example go_removes_tmp_dir :
  Main.files
    (@Main.go Demo.host Demo.runner (Demo.config "train_random_forest") Main.initial).2
  = ∅.
Proof. vm_compute. reflexivity. Qed.

Lemma C3_witness :
  Main.main_steps (Demo.config "all") = "all"
  /\ "test_regression_model" ∈ Main.stage_names
  /\ ("test_regression_model"
        ∉ @Main.active_steps_of (Main.main_steps (Demo.config "all")))
  /\ exists done,
       Main.invoked (@Main.go Demo.host Demo.runner (Demo.config "all") Main.initial).2
       = Main.invoked Main.initial ++ done
       /\ done `prefix_of` Main._steps
       /\ "test_regression_model" ∉ done.
Proof.
  split; [reflexivity|].
  apply (@C3_all_excludes_test_regression_model Demo.host Demo.runner). reflexivity.
Defined.

Lemma C4_witness :
  (Py.split "," (Main.main_steps (Demo.config "data_split,download"))
     ≡ₚ ["download"; "data_split"])
  /\ (@Main.go Demo.host Demo.runner (Demo.config "data_split,download") Main.initial).1
     = Ok tt
  /\ Main.invoked
       (@Main.go Demo.host Demo.runner (Demo.config "data_split,download") Main.initial).2
     = ["download"; "data_split"].
Proof.
  assert (Py.split "," (Main.main_steps (Demo.config "data_split,download"))
            ≡ₚ ["download"; "data_split"]) as Hperm by apply perm_swap.
  split; [exact Hperm|].
  destruct (@C4_explicit_pair_runs_in_canonical_order Demo.host Demo.runner
              (Demo.config "data_split,download") Main.initial Hperm)
    as (d & E & _ & F & A).
  assert ((@Main.go Demo.host Demo.runner (Demo.config "data_split,download")
             Main.initial).1 = Ok tt) as Hok by (apply A; reflexivity).
  split; [exact Hok|]. rewrite E, (F Hok). reflexivity.
Defined.

Lemma C7_witness :
  Main.main_steps (Demo.config "foo,download,bar") <> "all"
  /\ exists done,
       Main.invoked
         (@Main.go Demo.host Demo.runner (Demo.config "foo,download,bar") Main.initial).2
       = Main.invoked Main.initial ++ done
       /\ forall n, n ∈ done ->
            n ∈ Py.split "," (Main.main_steps (Demo.config "foo,download,bar"))
            /\ n ∈ Main.stage_names.
Proof.
  assert (Main.main_steps (Demo.config "foo,download,bar") <> "all") as Hne
    by discriminate.
  split; [exact Hne|].
  exact (proj1 (proj2 (@C7_unknown_names_ignored Demo.host Demo.runner
                         (Demo.config "foo,download,bar") Main.initial Hne))).
Defined.

(** Only unknown names: nothing runs, and the run succeeds. *)
Example go_only_unknown_names :
  @Main.go Demo.host Demo.runner (Demo.config "foo,bar") Main.initial
  = @Main.go Demo.host Demo.runner (Demo.config "") Main.initial
  /\ (@Main.go Demo.host Demo.runner (Demo.config "foo,bar") Main.initial).1 = Ok tt
  /\ Main.runs (@Main.go Demo.host Demo.runner (Demo.config "foo,bar") Main.initial).2
     = [].
Proof. split_and!; vm_compute; reflexivity. Qed.

(** * Properties of the cleaning stage *)

(** ** The order of binary64 numbers

    [PrimFloat.leb] and [PrimFloat.ltb] are specified by [SFleb] and
    [SFltb] on the unpacked representation; the facts the filters rest
    on are read off [SFcompare]. *)

Section FloatOrder.

Lemma SFcompare_nan_r x : SFcompare x S754_nan = None.
Proof. by destruct x. Qed.

Lemma leb_not_nan_r x y : PrimFloat.leb x y = true -> PrimFloat.is_nan y = false.
Proof.
  unfold PrimFloat.is_nan.
  rewrite FloatAxioms.leb_spec, FloatAxioms.eqb_spec. unfold SFleb, SFeqb.
  destruct (Prim2SF y) as [sy| sy| |sy my ey]; cbn.
  - done.
  - by destruct sy.
  - by rewrite SFcompare_nan_r.
  - intros _. destruct sy; rewrite Z.compare_refl, Pos.compare_cont_refl; done.
Qed.

Lemma leb_not_nan_l x y : PrimFloat.leb x y = true -> PrimFloat.is_nan x = false.
Proof.
  unfold PrimFloat.is_nan.
  rewrite FloatAxioms.leb_spec, FloatAxioms.eqb_spec. unfold SFleb, SFeqb.
  destruct (Prim2SF x) as [sx| sx| |sx mx ex]; cbn.
  - done.
  - by destruct sx.
  - done.
  - intros _. destruct sx; rewrite Z.compare_refl, Pos.compare_cont_refl; done.
Qed.

Lemma is_nan_not_leb_r x y : PrimFloat.is_nan y = true -> PrimFloat.leb x y = false.
Proof.
  intros Hy. destruct (PrimFloat.leb x y) eqn:E; [|done].
  apply leb_not_nan_r in E. congruence.
Qed.

Lemma is_nan_not_leb_l x y : PrimFloat.is_nan x = true -> PrimFloat.leb x y = false.
Proof.
  intros Hx. destruct (PrimFloat.leb x y) eqn:E; [|done].
  apply leb_not_nan_l in E. congruence.
Qed.

(** No chain [x <= y <= z < x]. *)
Lemma SFleb_SFleb_SFltb x y z :
  SFleb x y = true -> SFleb y z = true -> SFltb z x = true -> False.
Proof.
  unfold SFleb, SFltb.
  destruct x as [sx|sx| |sx mx ex], y as [sy|sy| |sy my ey], z as [sz|sz| |sz mz ez];
    cbn; try discriminate;
    repeat match goal with b : bool |- _ => destruct b end; cbn; try discriminate.
  all: intros Hxy Hyz Hzx; order_cases; cbn in *; try discriminate; lia.
Qed.

Lemma leb_leb_ltb x lo hi :
  PrimFloat.leb lo x = true -> PrimFloat.leb x hi = true ->
  PrimFloat.ltb hi lo = true -> False.
Proof.
  rewrite !FloatAxioms.leb_spec, FloatAxioms.ltb_spec.
  apply SFleb_SFleb_SFltb.
Qed.

End FloatOrder.

(** ** Masks and boolean indexing *)

Section Masks.

Lemma between_fmap {A} (f : A -> float) (l : list A) lo hi :
  between (f <$> l) lo hi = (fun a => ge_scalar (f a) lo && le_scalar (f a) hi) <$> l.
Proof.
  unfold between. induction l as [|a l IH]; [done|].
  cbn. f_equal. exact IH.
Qed.

Lemma between_lookup col lo hi i x :
  col !! i = Some x ->
  between col lo hi !! i = Some (ge_scalar x lo && le_scalar x hi).
Proof.
  intros Hx. rewrite <- (list_fmap_id col) at 1.
  rewrite between_fmap, list_lookup_fmap, Hx. done.
Qed.

Lemma series_and_fmap {A} (p q : A -> bool) (l : list A) :
  series_and (p <$> l) (q <$> l) = (fun a => p a && q a) <$> l.
Proof.
  unfold series_and. induction l as [|a l IH]; [done|].
  cbn. f_equal. exact IH.
Qed.

(** Indexing a table with a mask computed row by row is filtering. *)
Lemma getitem_fmap (p : Row -> bool) (df : DataFrame) :
  getitem df (p <$> df) = filter (fun r => p r) df.
Proof.
  induction df as [|r df IH]; [done|].
  rewrite fmap_cons, filter_cons. simpl getitem. rewrite IH.
  destruct (p r); by case_decide.
Qed.

End Masks.

Lemma Forall2_elem_of_r {A B} (P : A -> B -> Prop) l k y :
  Forall2 P l k -> y ∈ k -> exists x, x ∈ l /\ P x y.
Proof.
  induction 1 as [|x y' l k Hxy _ IH]; [by intros ?%elem_of_nil|].
  intros [->|Hy]%elem_of_cons.
  - exists x. split; [left | done].
  - destruct (IH Hy) as (x' & Hx' & HP). exists x'. split; [by right | done].
Qed.

(** ** What [go] writes and publishes *)

Section CleaningProperties.
Context `{!Pandas} `{!Clock} `{!Wandb} `{!Disk}.

Lemma price_mask args (df : DataFrame) :
  getitem df (between (as_float64 <$> (price <$> df)) (min_price args) (max_price args))
  = filter (fun r => in_price_range args r) df.
Proof. by rewrite <- list_fmap_compose, between_fmap, getitem_fmap. Qed.

#[warnings="-inexact-float"]
Lemma box_mask (df : DataFrame) :
  getitem df
    (series_and
       (between (longitude <$> df) (Some (-74.25)%float) (Some (-73.50)%float))
       (between (latitude <$> df) (Some 40.5%float) (Some 41.2%float)))
  = filter (fun r => in_box r) df.
Proof. by rewrite !between_fmap, series_and_fmap, getitem_fmap. Qed.


Lemma strptime1_Raise fmt c e :
  strptime1 fmt c = Raise e -> exists t, c = Text t /\ e = DateParseError t.
Proof.
  destruct c as [|t|t|]; cbn; try done.
  destruct (strptime fmt t); [done|]. intros [= <-]. by eexists.
Qed.

Lemma to_datetime1_Raise c e :
  to_datetime1 c = Raise e -> exists t, c = Text t /\ e = DateParseError t.
Proof.
  destruct c as [|t|t|]; cbn; try done.
  destruct (parse_datetime t); [done|]. intros [= <-]. by eexists.
Qed.

Lemma cells_Forall2 f col dates :
  cells f col = Ok dates -> Forall2 (fun c d => f c = Ok d) col dates.
Proof.
  revert dates. induction col as [|c col IH]; intros dates; cbn.
  - intros [= <-]. constructor.
  - destruct (f c) as [d|e] eqn:Ec; [|done].
    destruct (cells f col) as [ds|e]; [|done].
    intros [= <-]. constructor; [done | by apply IH].
Qed.

Lemma cells_Raise f col e :
  cells f col = Raise e -> exists c, c ∈ col /\ f c = Raise e.
Proof.
  induction col as [|c col IH]; cbn; [done|].
  destruct (f c) as [d|e'] eqn:Ec.
  - destruct (cells f col) as [ds|e'']; [done|]. intros [= <-].
    destruct (IH eq_refl) as (c' & Hin & Hc). exists c'. split; [by right | done].
  - intros [= <-]. exists c. split; [by left | done].
Qed.


Lemma to_datetime_cells col :
  to_datetime col = cells (to_datetime_cell col) col.
Proof.
  unfold to_datetime, to_datetime_cell, array_strptime, array_to_datetime.
  by destruct (_guess_datetime_format_for_array col).
Qed.

Lemma to_datetime_Forall2 col dates :
  to_datetime col = Ok dates ->
  Forall2 (fun c d => to_datetime_cell col c = Ok d) col dates.
Proof. rewrite to_datetime_cells. apply cells_Forall2. Qed.

Lemma to_datetime_cell_Raise col c e :
  to_datetime_cell col c = Raise e -> exists t, c = Text t /\ e = DateParseError t.
Proof.
  unfold to_datetime_cell. destruct (_guess_datetime_format_for_array col).
  - apply strptime1_Raise.
  - apply to_datetime1_Raise.
Qed.

(** Whatever [to_datetime] raises is the complaint about one string of
    the column. *)
Lemma to_datetime_Raise col e :
  to_datetime col = Raise e -> exists t, Text t ∈ col /\ e = DateParseError t.
Proof.
  rewrite to_datetime_cells. intros (c & Hin & Hc)%cells_Raise.
  apply to_datetime_cell_Raise in Hc as (t & -> & ->). by exists t.
Qed.



Lemma setitem_converted col (df : DataFrame) dates :
  Forall2 (fun c d => to_datetime_cell col c = Ok d) (last_review <$> df) dates ->
  Forall2 (converted col) df (setitem_last_review df dates).
Proof.
  unfold setitem_last_review.
  revert dates. induction df as [|r df IH]; intros dates Hd.
  - constructor.
  - rewrite fmap_cons in Hd. inversion Hd as [|c d col' ds Hc Hds]; subst.
    cbn. constructor; [done | by apply IH].
Qed.

Lemma Forall2_converted_untouched col l k :
  Forall2 (converted col) l k -> untouched <$> l = untouched <$> k.
Proof.
  induction 1 as [|r r' l k [Hu _] _ IH]; [done|].
  rewrite !fmap_cons. by f_equal.
Qed.

Lemma converted_in_box col r r' : converted col r r' -> in_box r <-> in_box r'.
Proof.
  intros [Hu _]. unfold untouched in Hu. unfold in_box.
  injection Hu as _ -> -> _. done.
Qed.

Lemma Forall2_converted_in_box col l k :
  Forall2 (converted col) l k ->
  Forall2 (converted col) (filter (fun r => in_box r) l) (filter (fun r => in_box r) k).
Proof.
  intros Hc. apply Forall2_filter; [|done].
  intros r r' Hr. by apply (converted_in_box col).
Qed.

Lemma converted_functional col r r1 r2 :
  converted col r r1 -> converted col r r2 -> r1 = r2.
Proof.
  intros [Hu1 Hd1] [Hu2 Hd2]. rewrite Hd1 in Hd2. rewrite Hu1 in Hu2.
  destruct r1, r2. unfold untouched in Hu2. cbn in *. congruence.
Qed.

Lemma Forall2_converted_functional col l k1 k2 :
  Forall2 (converted col) l k1 -> Forall2 (converted col) l k2 -> k1 = k2.
Proof.
  intros Hk1. revert k2. induction Hk1 as [|r r1 l k1 Hr _ IH]; intros k2 Hk2.
  - by inversion Hk2.
  - inversion Hk2 as [|? r2 ? k2' Hr2 Hk2']; subst.
    f_equal; [by eapply converted_functional | by apply IH].
Qed.

#[warnings="-inexact-float"]
Lemma in_box_bounds r :
  in_box r ->
  (PrimFloat.leb (-74.25) (longitude r) = true
   /\ PrimFloat.leb (longitude r) (-73.50) = true)
  /\ (PrimFloat.leb 40.5 (latitude r) = true
      /\ PrimFloat.leb (latitude r) 41.2 = true).
Proof.
  unfold in_box. cbn [ge_scalar le_scalar]. intros Hbox.
  apply Is_true_true in Hbox. rewrite !andb_true_iff in Hbox. exact Hbox.
Qed.

(** Every path through [go], with the two masks read as filters. *)
Lemma go_unfold args s :
  go args s =
  match use_artifact_file (input_artifact args) with
  | None => (Raise (ArtifactNotFound (input_artifact args)), started args s)
  | Some path =>
      match read_csv_file path with
      | None => (Raise (ReadError path), started args s)
      | Some df =>
          match to_datetime (last_review <$> filter (fun r => in_price_range args r) df) with
          | Raise e => (Raise e, started args s)
          | Ok dates =>
              let out :=
                filter (fun r => in_box r)
                  (setitem_last_review (filter (fun r => in_price_range args r) df) dates) in
              match output_artifact args with
              | None => (Raise TypeError, written args s out)
              | Some name =>
                  if artifact_accepted name (output_type args) (output_description args)
                  then
                    if log_artifact_ok (published args out)
                    then (Ok tt,
                          {| job_type := Some "basic_cleaning"; run_config := Some args;
                             fs := <["clean_sample.csv" := out]> (fs s);
                             logged := logged s ++ [published args out] |})
                    else (Raise UploadError, written args s out)
                  else (Raise (ValueError name), written args s out)
              end
          end
      end
  end.
Proof.
  unfold go, bind, wandb_init, run_config_update, use_artifact, read_csv,
    unwrap, lift, to_csv, add_file, log_artifact, modify, raise, ret, bind,
    wandb_Artifact, started, written, published.
  cbn [fs logged job_type run_config art_name art_type art_description art_files].
  destruct (use_artifact_file (input_artifact args)) as [path|]; [|done].
  destruct (read_csv_file path) as [df|]; [|done].
  rewrite price_mask.
  destruct (to_datetime _) as [dates|e]; [|done].
  rewrite box_mask. cbn zeta.
  destruct (output_artifact args) as [name|]; [|done].
  unfold raise, ret.
  destruct (artifact_accepted name _ _); [|done].
  cbn [fs]. rewrite lookup_insert_eq. cbn.
  by destruct (log_artifact_ok _).
Qed.

(** A run that completes: what it read, and the state it leaves. *)
Lemma go_Ok_inv args s :
  (go args s).1 = Ok tt ->
  exists df dates,
    loaded args = Some df
    /\ to_datetime (last_review <$> filter (fun r => in_price_range args r) df) = Ok dates
    /\ (go args s).2
       = {| job_type := Some "basic_cleaning"; run_config := Some args;
            fs := <["clean_sample.csv" :=
                      filter (fun r => in_box r)
                        (setitem_last_review
                           (filter (fun r => in_price_range args r) df) dates)]> (fs s);
            logged :=
              logged s
              ++ [published args
                    (filter (fun r => in_box r)
                       (setitem_last_review
                          (filter (fun r => in_price_range args r) df) dates))] |}.
Proof.
  unfold loaded. rewrite go_unfold.
  destruct (use_artifact_file (input_artifact args)) as [path|]; [|done].
  destruct (read_csv_file path) as [df|] eqn:Hdf; [|done].
  destruct (to_datetime _) as [dates|e] eqn:Hd; [|done].
  cbn zeta. destruct (output_artifact args) as [name|]; [|done].
  destruct (artifact_accepted name _ _); [|done].
  destruct (log_artifact_ok _); [|done].
  intros _. by exists df, dates.
Qed.

Lemma cleaned_output_inv args s out :
  cleaned_output args s out ->
  exists df dated,
    loaded args = Some df
    /\ Forall2 (converted (last_review <$> filter (fun r => in_price_range args r) df))
         (filter (fun r => in_price_range args r) df) dated
    /\ out = filter (fun r => in_box r) dated.
Proof.
  intros (Hok & Hfs & _).
  destruct (go_Ok_inv _ _ Hok) as (df & dates & Hl & Hd & Hs).
  rewrite Hs in Hfs. cbn in Hfs. rewrite lookup_insert_eq in Hfs.
  injection Hfs as <-.
  exists df, (setitem_last_review (filter (fun r => in_price_range args r) df) dates).
  split_and!; [done| |done].
  apply setitem_converted, to_datetime_Forall2, Hd.
Qed.

(** The output, row for row, is a subsequence [kept] of the input with
    the dates read; [kept] passed the price filter, the output the
    bounding box. *)
Lemma cleaned_output_kept args s out :
  cleaned_output args s out ->
  exists df kept,
    loaded args = Some df
    /\ kept `sublist_of` df
    /\ Forall2 (converted (last_review <$> filter (fun r => in_price_range args r) df))
         kept out
    /\ Forall (fun r => in_price_range args r) kept
    /\ Forall (fun r => in_box r) out.
Proof.
  intros (df & dated & Hl & Hc & ->)%cleaned_output_inv.
  exists df, (filter (fun r => in_box r) (filter (fun r => in_price_range args r) df)).
  split_and!.
  - done.
  - etrans; apply sublist_filter.
  - by apply Forall2_converted_in_box.
  - apply Forall_forall.
    intros r (_ & (Hr & _)%list_elem_of_filter)%list_elem_of_filter. done.
  - apply Forall_forall. intros r (Hr & _)%list_elem_of_filter. done.
Qed.

(** C1, as the code has it: the thresholds are floats and pandas
    compares the price column with them as [float64].  Whatever the data
    set and the thresholds, every row of the table the stage writes and
    publishes has [min_price <= price] and [price <= max_price], both
    comparisons inclusive, for the price as [float64]: the price itself
    in a [float64] column, the binary64 number nearest to it in an
    [int64] column. *)
Theorem C1_price_within_thresholds args s out lo hi :
  min_price args = Some lo ->
  max_price args = Some hi ->
  cleaned_output args s out ->
  forall r, r ∈ out ->
    (PrimFloat.leb lo (as_float64 (price r)) = true
     /\ PrimFloat.leb (as_float64 (price r)) hi = true)
    /\ (forall x, price r = Float64 x ->
          PrimFloat.leb lo x = true /\ PrimFloat.leb x hi = true)
    /\ (forall z, price r = Int64 z ->
          PrimFloat.leb lo (int64_to_float64 z) = true
          /\ PrimFloat.leb (int64_to_float64 z) hi = true).
Proof.
  intros Hlo Hhi (df & kept & _ & _ & Hconv & Hprice & _)%cleaned_output_kept r Hr.
  destruct (Forall2_elem_of_r _ _ _ _ Hconv Hr) as (r0 & Hr0 & [Hu _]).
  rewrite Forall_forall in Hprice. specialize (Hprice r0 Hr0).
  unfold in_price_range in Hprice. rewrite Hlo, Hhi in Hprice.
  apply Is_true_true, andb_true_iff in Hprice.
  unfold untouched in Hu. injection Hu as <- _ _ _.
  split; [exact Hprice|].
  split; intros x Hx; rewrite Hx in Hprice; exact Hprice.
Qed.

(** C5: whatever the data set and the arguments, every row of the
    output has its longitude in [-74.25, -73.50] and its latitude in
    [40.5, 41.2]; the four bounds are literals of [go], which no
    argument reaches.  (41.2 is the binary64 number nearest to it, as
    in Python.) *)
#[warnings="-inexact-float"]
Theorem C5_inside_bounding_box args s out :
  cleaned_output args s out ->
  forall r, r ∈ out ->
    (PrimFloat.leb (-74.25) (longitude r) = true
     /\ PrimFloat.leb (longitude r) (-73.50) = true)
    /\ (PrimFloat.leb 40.5 (latitude r) = true
        /\ PrimFloat.leb (latitude r) 41.2 = true).
Proof.
  intros (df & kept & _ & _ & _ & _ & Hbox)%cleaned_output_kept r Hr.
  rewrite Forall_forall in Hbox. by apply in_box_bounds, Hbox.
Qed.

(** C9: the rows of the output are, in their order, rows of the input
    (a subsequence [kept] of it) with the price, the longitude, the
    latitude and the remaining columns as they were, and the
    [last_review] cell read as a date, as [to_datetime] reads the cells
    of the column it is given: the reviews of the rows inside the price
    range. *)
Theorem C9_rows_only_dropped args s out :
  cleaned_output args s out ->
  exists df kept,
    loaded args = Some df
    /\ kept `sublist_of` df
    /\ Forall2
         (fun r r' =>
            price r' = price r /\ longitude r' = longitude r
            /\ latitude r' = latitude r /\ other r' = other r
            /\ to_datetime_cell
                 (last_review <$> filter (fun r => in_price_range args r) df)
                 (last_review r)
               = Ok (last_review r'))
         kept out.
Proof.
  intros (df & kept & Hl & Hsub & Hconv & _)%cleaned_output_kept.
  exists df, kept. split_and!; [done..|].
  eapply Forall2_impl; [exact Hconv|].
  intros r r' [Hu Hd]. unfold untouched in Hu. injection Hu as -> -> -> ->. done.
Qed.


(** C10: no row of the output has a NaN price, longitude or latitude;
    when [min_price > max_price] the output is empty; and [between]
    answers for every column, with [False] wherever the value is NaN,
    whatever the bounds. *)
Theorem C10_missing_values_dropped args s :
  (forall out, cleaned_output args s out ->
     forall r, r ∈ out ->
       PrimFloat.is_nan (as_float64 (price r)) = false
       /\ PrimFloat.is_nan (longitude r) = false
       /\ PrimFloat.is_nan (latitude r) = false)
  /\ (forall out lo hi,
        min_price args = Some lo ->
        max_price args = Some hi ->
        PrimFloat.ltb hi lo = true ->
        cleaned_output args s out ->
        out = [])
  /\ (forall col lo hi,
        length (between col lo hi) = length col
        /\ forall i x,
             col !! i = Some x ->
             PrimFloat.is_nan x = true ->
             between col lo hi !! i = Some false).
Proof.
  split_and!.
  - intros out Hout r Hr.
    pose proof Hout as (df & kept & _ & _ & Hconv & Hprice & Hbox)%cleaned_output_kept.
    rewrite Forall_forall in Hbox.
    destruct (in_box_bounds r (Hbox r Hr)) as [[Hlon _] [Hlat _]].
    destruct (Forall2_elem_of_r _ _ _ _ Hconv Hr) as (r0 & Hr0 & [Hu _]).
    rewrite Forall_forall in Hprice. specialize (Hprice r0 Hr0).
    unfold untouched in Hu. injection Hu as Hu _ _ _.
    unfold in_price_range in Hprice. rewrite Hu in Hprice.
    apply Is_true_true, andb_true_iff in Hprice as [Hge _].
    split_and!; [|by eapply leb_not_nan_r..].
    unfold ge_scalar in Hge. destruct (min_price args); [|done].
    by eapply leb_not_nan_r.
  - intros out lo hi Hlo Hhi Hcross Hout.
    destruct out as [|r out]; [done|]. exfalso.
    pose proof Hout as (df & kept & _ & _ & Hconv & Hprice & _)%cleaned_output_kept.
    destruct (Forall2_elem_of_r _ _ _ r Hconv) as (r0 & Hr0 & _); [by left|].
    rewrite Forall_forall in Hprice. specialize (Hprice r0 Hr0).
    unfold in_price_range in Hprice. rewrite Hlo, Hhi in Hprice.
    apply Is_true_true, andb_true_iff in Hprice as [Hge Hle].
    exact (leb_leb_ltb _ _ _ Hge Hle Hcross).
  - intros col lo hi. split.
    + unfold between. rewrite length_zip_with, !length_fmap. lia.
    + intros i x Hx Hnan. rewrite (between_lookup _ _ _ _ _ Hx). f_equal.
      destruct lo as [lo|]; [|done]. cbn. by rewrite is_nan_not_leb_r.
Qed.

End CleaningProperties.

Lemma to_datetime_cell_agree {P : Pandas} {K1 K2 : Clock} col c :
  (forall t, c = Text t -> read_alike K1 K2 t) ->
  @to_datetime_cell P K1 col c = @to_datetime_cell P K2 col c.
Proof.
  intros Hc. unfold to_datetime_cell.
  destruct (_guess_datetime_format_for_array col) as [fmt|];
    destruct c as [|t|t|]; try done; destruct (Hc t eq_refl) as [Hp Hs]; cbn.
  - unfold strptime. by rewrite (Hs fmt).
  - unfold parse_datetime. by rewrite Hp.
Qed.

Lemma Forall2_converted_agree {P : Pandas} {K1 K2 : Clock} col l k1 k2 :
  Forall2 (@converted P K1 col) l k1 ->
  Forall2 (@converted P K2 col) l k2 ->
  (forall r t, r ∈ l -> last_review r = Text t -> read_alike K1 K2 t) ->
  k1 = k2.
Proof.
  intros Hk1. revert k2. induction Hk1 as [|r r1 l k1 [Hu1 Hd1] _ IH]; intros k2 Hk2 Hsame.
  - by inversion Hk2.
  - inversion Hk2 as [|? r2 ? k2' [Hu2 Hd2] Hk2']; subst. f_equal.
    + rewrite (to_datetime_cell_agree (K1 := K1) (K2 := K2)) in Hd1
        by (intros t Ht; apply (Hsame r t); [by left | done]).
      rewrite Hd1 in Hd2. rewrite Hu1 in Hu2.
      destruct r1, r2. unfold untouched in Hu2. cbn in *. congruence.
    + apply IH; [done|]. intros r' t Hr'. apply Hsame. by right.
Qed.

(** C8, as the code has it: [pd.to_datetime] reads the words [now] and
    [today] against the clock.  Two runs of the stage that load the same
    table and are given the same [min_price] and [max_price] keep the
    same rows, with the same values in every column other than
    [last_review], whatever else differs between them: the other
    arguments, the state they start from, what the W&B reference
    resolves to, where the file lies and when they run.  They write the
    same rows when, in addition, every review text of a row inside the
    price range is read as the same instant at the times of both
    runs. *)
Theorem C8_output_determined_by_input_and_thresholds
    {P : Pandas} {K1 K2 : Clock} {W1 W2 : Wandb} {D1 D2 : Disk}
    args1 args2 s1 s2 out1 out2 :
  @loaded W1 D1 args1 = @loaded W2 D2 args2 ->
  min_price args1 = min_price args2 ->
  max_price args1 = max_price args2 ->
  @cleaned_output P K1 W1 D1 args1 s1 out1 ->
  @cleaned_output P K2 W2 D2 args2 s2 out2 ->
  untouched <$> out1 = untouched <$> out2
  /\ ((forall df r t,
         @loaded W1 D1 args1 = Some df ->
         r ∈ df ->
         in_price_range args1 r = true ->
         last_review r = Text t ->
         read_alike K1 K2 t) ->
      out1 = out2).
Proof.
  intros Hin Hlo Hhi
    (df1 & dated1 & Hl1 & Hc1 & ->)%cleaned_output_inv
    (df2 & dated2 & Hl2 & Hc2 & ->)%cleaned_output_inv.
  rewrite Hl1, Hl2 in Hin. injection Hin as ->.
  assert (filter (fun r => in_price_range args1 r) df2
          = filter (fun r => in_price_range args2 r) df2) as Hsame.
  { apply list_filter_iff. intros r. unfold in_price_range. by rewrite Hlo, Hhi. }
  rewrite Hsame in Hc1. split.
  - transitivity
      (untouched <$> filter (fun r => in_box r)
                       (filter (fun r => in_price_range args2 r) df2)).
    + symmetry.
      exact (Forall2_converted_untouched _ _ _ (Forall2_converted_in_box _ _ _ Hc1)).
    + exact (Forall2_converted_untouched _ _ _ (Forall2_converted_in_box _ _ _ Hc2)).
  - intros Hread. f_equal.
    apply (Forall2_converted_agree _ _ _ _ Hc1 Hc2).
    intros r t (Hp & Hr)%list_elem_of_filter Ht.
    apply (Hread df2 r t); [done | done | | done].
    apply Is_true_true. unfold in_price_range in *. by rewrite Hlo, Hhi.
Qed.

(** ** The stage on the example tables *)

(** Thresholds 50 and 500 on prices 10, 100 and 600 keep the row priced
    100 (the far, unpriced and unplaced listings go as well), with its
    review date read. *)
Lemma demo_cleaned_output :
  @cleaned_output Demo.pandas Demo.clock Demo.wandb Demo.disk
    (Demo.args "sample.csv:latest" 50 500) initial Demo.clean_sample.
Proof.
  split_and!; [vm_compute; reflexivity..|].
  eexists. split; vm_compute; reflexivity.
Defined.

(** A price of 2^53 + 1 in a column of whole numbers, under a
    [max_price] of 2^53 (the mantissa 2^52 with exponent 1): as
    [float64] the price is 2^53, the row is kept, and the table written
    holds the price as it was read. *)
Lemma C1_counterexample :
  @cleaned_output Demo.pandas Demo.clock Demo.wandb Demo.disk
    (Demo.args "whole.csv:latest" 50 9007199254740992) initial
    [ Demo.listing (Int64 100) (-73.75) 40.75 (Date 1558396800000000000) "fair";
      Demo.listing (Int64 9007199254740993) (-73.75) 40.75
        (Date 1561852800000000000) "palace" ]
  /\ max_price (Demo.args "whole.csv:latest" 50 9007199254740992)
     = Some 9007199254740992%float
  /\ Prim2SF 9007199254740992%float = S754_finite false 4503599627370496 1
  /\ (4503599627370496 * 2 ^ 1 < 9007199254740993)%Z
  /\ as_float64 (Int64 9007199254740993) = 9007199254740992%float.
Proof.
  split; [|split_and!; vm_compute; reflexivity].
  split_and!; [vm_compute; reflexivity..|].
  eexists. split; vm_compute; reflexivity.
Qed.

Lemma C1_witness :
  @cleaned_output Demo.pandas Demo.clock Demo.wandb Demo.disk
    (Demo.args "sample.csv:latest" 50 500) initial Demo.clean_sample
  /\ forall r, r ∈ Demo.clean_sample ->
       (PrimFloat.leb 50 (as_float64 (price r)) = true
        /\ PrimFloat.leb (as_float64 (price r)) 500 = true)
       /\ (forall x, price r = Float64 x ->
             PrimFloat.leb 50 x = true /\ PrimFloat.leb x 500 = true)
       /\ (forall z, price r = Int64 z ->
             PrimFloat.leb 50 (int64_to_float64 z) = true
             /\ PrimFloat.leb (int64_to_float64 z) 500 = true).
Proof.
  split; [exact demo_cleaned_output|].
  exact (@C1_price_within_thresholds Demo.pandas Demo.clock Demo.wandb Demo.disk
           (Demo.args "sample.csv:latest" 50 500) initial Demo.clean_sample 50 500
           eq_refl eq_refl demo_cleaned_output).
Defined.

#[warnings="-inexact-float"]
Lemma C5_witness :
  @cleaned_output Demo.pandas Demo.clock Demo.wandb Demo.disk
    (Demo.args "sample.csv:latest" 50 500) initial Demo.clean_sample
  /\ forall r, r ∈ Demo.clean_sample ->
       (PrimFloat.leb (-74.25) (longitude r) = true
        /\ PrimFloat.leb (longitude r) (-73.50) = true)
       /\ (PrimFloat.leb 40.5 (latitude r) = true
           /\ PrimFloat.leb (latitude r) 41.2 = true).
Proof.
  split; [exact demo_cleaned_output|].
  exact (@C5_inside_bounding_box Demo.pandas Demo.clock Demo.wandb Demo.disk
           (Demo.args "sample.csv:latest" 50 500) initial Demo.clean_sample
           demo_cleaned_output).
Defined.

Lemma C9_witness :
  @cleaned_output Demo.pandas Demo.clock Demo.wandb Demo.disk
    (Demo.args "sample.csv:latest" 50 500) initial Demo.clean_sample
  /\ exists df kept,
       @loaded Demo.wandb Demo.disk (Demo.args "sample.csv:latest" 50 500) = Some df
       /\ kept `sublist_of` df
       /\ Forall2
            (fun r r' =>
               price r' = price r /\ longitude r' = longitude r
               /\ latitude r' = latitude r /\ other r' = other r
               /\ @to_datetime_cell Demo.pandas Demo.clock
                    (last_review
                       <$> filter
                             (fun r =>
                                in_price_range (Demo.args "sample.csv:latest" 50 500) r)
                             df)
                    (last_review r)
                  = Ok (last_review r'))
            kept Demo.clean_sample.
Proof.
  split; [exact demo_cleaned_output|].
  exact (@C9_rows_only_dropped Demo.pandas Demo.clock Demo.wandb Demo.disk
           (Demo.args "sample.csv:latest" 50 500) initial Demo.clean_sample
           demo_cleaned_output).
Defined.

(** A second run, a minute later, from the state the first one left,
    under another output name: the same rows. *)
Lemma demo_cleaned_again :
  @cleaned_output Demo.pandas Demo.later Demo.wandb Demo.disk
    Demo.args_again
    (@go Demo.pandas Demo.clock Demo.wandb Demo.disk
       (Demo.args "sample.csv:latest" 50 500) initial).2
    Demo.clean_sample.
Proof.
  split_and!; [vm_compute; reflexivity..|].
  eexists. split; vm_compute; reflexivity.
Defined.

(** The review dates of the sample are calendar dates, read the same at
    any time. *)
Lemma demo_sample_read_alike df r t :
  @loaded Demo.wandb Demo.disk (Demo.args "sample.csv:latest" 50 500) = Some df ->
  r ∈ df ->
  in_price_range (Demo.args "sample.csv:latest" 50 500) r = true ->
  last_review r = Text t ->
  @read_alike Demo.pandas Demo.clock Demo.later t.
Proof.
  intros [= <-] Hr _. unfold Demo.sample in Hr.
  repeat (apply elem_of_cons in Hr as [-> | Hr]); [..|by apply elem_of_nil in Hr];
    cbn; intros [= <-]; (split; [|intros fmt]); vm_compute; reflexivity.
Defined.

Lemma C8_witness :
  (@cleaned_output Demo.pandas Demo.clock Demo.wandb Demo.disk
     (Demo.args "sample.csv:latest" 50 500) initial Demo.clean_sample
   /\ @cleaned_output Demo.pandas Demo.later Demo.wandb Demo.disk
        Demo.args_again
        (@go Demo.pandas Demo.clock Demo.wandb Demo.disk
           (Demo.args "sample.csv:latest" 50 500) initial).2
        Demo.clean_sample)
  /\ untouched <$> Demo.clean_sample = untouched <$> Demo.clean_sample
  /\ Demo.clean_sample = Demo.clean_sample.
Proof.
  split; [split; [exact demo_cleaned_output | exact demo_cleaned_again]|].
  destruct (@C8_output_determined_by_input_and_thresholds Demo.pandas
              Demo.clock Demo.later Demo.wandb Demo.wandb Demo.disk Demo.disk
              (Demo.args "sample.csv:latest" 50 500) Demo.args_again
              initial
              (@go Demo.pandas Demo.clock Demo.wandb Demo.disk
                 (Demo.args "sample.csv:latest" 50 500) initial).2
              Demo.clean_sample Demo.clean_sample
              eq_refl eq_refl eq_refl demo_cleaned_output demo_cleaned_again)
    as [Hrows Hsame].
  split; [exact Hrows | exact (Hsame demo_sample_read_alike)].
Defined.

(** A review date given as [now]: the same table, the same arguments,
    the same state, one minute apart, and two different outputs. *)
Lemma C8_counterexample :
  @cleaned_output Demo.pandas Demo.clock Demo.wandb Demo.disk
    (Demo.args "now.csv:latest" 50 500) initial
    [ Demo.listing (Int64 100) (-73.75) 40.75 (Date 1700000000000000000) "fresh" ]
  /\ @cleaned_output Demo.pandas Demo.later Demo.wandb Demo.disk
       (Demo.args "now.csv:latest" 50 500) initial
       [ Demo.listing (Int64 100) (-73.75) 40.75 (Date 1700000060000000000) "fresh" ]
  /\ [ Demo.listing (Int64 100) (-73.75) 40.75 (Date 1700000000000000000) "fresh" ]
     <> [ Demo.listing (Int64 100) (-73.75) 40.75 (Date 1700000060000000000) "fresh" ].
Proof.
  split_and!; [| |discriminate];
    (split_and!; [vm_compute; reflexivity..|]);
    eexists; split; vm_compute; reflexivity.
Qed.


(** The bad date is harmless when the price filter drops its row first. *)
Example dirty_row_filtered_out :
  @cleaned_output Demo.pandas Demo.clock Demo.wandb Demo.disk
    (Demo.args "dirty.csv:latest" 50 120) initial
    [ Demo.listing (Int64 100) (-73.75) 40.75 (Date 1558396800000000000) "fair" ].
Proof.
  split_and!; [vm_compute; reflexivity..|].
  eexists. split; vm_compute; reflexivity.
Qed.

(** Two dates in two formats: a pandas that guesses the format of the
    column from its first date refuses the second, one that reads date
    by date accepts both. *)
Example mixed_formats :
  (@go Demo.pandas Demo.clock Demo.wandb Demo.disk
     (Demo.args "mixed.csv:latest" 50 500) initial).1
  = Raise (DateParseError "06/30/2019")
  /\ @cleaned_output Demo.pandas1 Demo.clock Demo.wandb Demo.disk
       (Demo.args "mixed.csv:latest" 50 500) initial
       [ Demo.listing (Int64 100) (-73.75) 40.75 (Date 1558396800000000000) "fair";
         Demo.listing (Int64 110) (-73.75) 40.75 (Date 1561852800000000000) "other" ].
Proof.
  split; [vm_compute; reflexivity|].
  split_and!; [vm_compute; reflexivity..|].
  eexists. split; vm_compute; reflexivity.
Qed.

(** Two dates written with slashes, the first with the day first: a
    pandas that guesses the format of the column reads the second as
    the first of February, one that reads date by date as the second of
    January. *)
Example day_or_month_first :
  @cleaned_output Demo.pandas Demo.clock Demo.wandb Demo.disk
    (Demo.args "slashed.csv:latest" 50 500) initial
    [ Demo.listing (Int64 100) (-73.75) 40.75 (Date 1550016000000000000) "fair";
      Demo.listing (Int64 110) (-73.75) 40.75 (Date 1548979200000000000) "other" ]
  /\ @cleaned_output Demo.pandas1 Demo.clock Demo.wandb Demo.disk
       (Demo.args "slashed.csv:latest" 50 500) initial
       [ Demo.listing (Int64 100) (-73.75) 40.75 (Date 1550016000000000000) "fair";
         Demo.listing (Int64 110) (-73.75) 40.75 (Date 1546387200000000000) "other" ].
Proof.
  split; (split_and!; [vm_compute; reflexivity..|]);
    eexists; split; vm_compute; reflexivity.
Qed.


(** Crossed thresholds leave nothing. *)
Example crossed_thresholds_empty :
  @cleaned_output Demo.pandas Demo.clock Demo.wandb Demo.disk
    (Demo.args "sample.csv:latest" 500 50) initial [].
Proof.
  split_and!; [vm_compute; reflexivity..|].
  eexists. split; vm_compute; reflexivity.
Qed.

(** The word [NaT] is read as null, the word [now] as the time of the
    run; neither stands in the way of the format guessed from the
    date. *)
Example to_datetime_words :
  @to_datetime Demo.pandas Demo.clock [Text "NaT"; Missing; Text "now"; Text "2019-05-21"]
  = Ok [NaT; NaT; Date 1700000000000000000; Date 1558396800000000000].
Proof. vm_compute. reflexivity. Qed.

(** A NaN is outside every range, also an unbounded one. *)
Example between_nan :
  between [100; nan; 90]%float (Some neg_infinity) (Some infinity)
  = [true; false; true].
Proof. reflexivity. Qed.

Lemma C10_witness :
  @cleaned_output Demo.pandas Demo.clock Demo.wandb Demo.disk
    (Demo.args "sample.csv:latest" 50 500) initial Demo.clean_sample
  /\ forall r, r ∈ Demo.clean_sample ->
       PrimFloat.is_nan (as_float64 (price r)) = false
       /\ PrimFloat.is_nan (longitude r) = false
       /\ PrimFloat.is_nan (latitude r) = false.
Proof.
  split; [exact demo_cleaned_output|].
  exact (proj1 (@C10_missing_values_dropped Demo.pandas Demo.clock Demo.wandb Demo.disk
                  (Demo.args "sample.csv:latest" 50 500) initial)
           Demo.clean_sample demo_cleaned_output).
Defined.

(** * Properties of the command line *)

Section CommandLine.
Context `{!Python}.

Lemma classify_declared a :
  a ∈ parser -> classify parser (option_string a) = Flag a.
Proof. intros Ha. parser_cases Ha; reflexivity. Qed.

Lemma getattr_setattr_other a b x ns :
  a ∈ parser -> b ∈ parser -> a <> b ->
  getattr (setattr ns (dest b) x) (dest a) = getattr ns (dest a).
Proof.
  intros Ha Hb Hne. parser_cases Ha; parser_cases Hb; try done; by destruct x.
Qed.

Lemma getattr_empty a : a ∈ parser -> getattr empty_namespace (dest a) = None.
Proof. intros Ha. parser_cases Ha; reflexivity. Qed.

Lemma consume_flag tok a v rest ns seen extras x :
  classify parser tok = Flag a ->
  classify parser v = Plain ->
  convert (type a) v = Some x ->
  consume parser (tok :: v :: rest) ns seen extras
  = consume parser rest (setattr ns (dest a) x) (dest a :: seen) extras.
Proof. intros Ht Hv Hx. cbn [consume]. by rewrite Ht, Hv, Hx. Qed.

(** No option is required, so the end of the command line is reached
    without complaint. *)
Lemma consume_end ns seen : consume parser [] ns seen false = Parsed ns.
Proof. reflexivity. Qed.

Lemma consume_given given ns seen :
  Forall well_given given ->
  consume parser (argv_of given) ns seen false = Parsed (foldl store ns given).
Proof.
  intros Hg. revert ns seen.
  induction Hg as [|[a v] given (Ha & Hv & [x Hx]) _ IH]; intros ns seen.
  - apply consume_end.
  - cbn in Ha, Hv, Hx. unfold argv_of. cbn [mbind list_bind app fst snd].
    rewrite (consume_flag _ a v _ _ _ _ x) by (done || by apply classify_declared).
    unfold argv_of in IH. rewrite IH. cbn [foldl].
    assert (store ns (a, v) = setattr ns (dest a) x) as ->; [|done].
    unfold store. cbn [fst snd]. by rewrite Hx.
Qed.

Lemma in_fragment_given given :
  Forall well_given given -> forallb (in_fragment parser) (argv_of given) = true.
Proof.
  induction 1 as [|[a v] given (Ha & Hv & _) _ IH]; [done|].
  cbn in Ha, Hv. unfold argv_of. cbn [mbind list_bind app fst snd forallb].
  unfold in_fragment at 1 2. rewrite (classify_declared a Ha), Hv. exact IH.
Qed.

Lemma getattr_foldl_store a given ns :
  Forall well_given given -> a ∈ parser -> a ∉ given.*1 ->
  getattr (foldl store ns given) (dest a) = getattr ns (dest a).
Proof.
  intros Hg Ha. revert ns.
  induction Hg as [|[b v] given (Hb & _ & [x Hx]) _ IH]; intros ns Hni; [done|].
  cbn in Hb, Hx. rewrite fmap_cons, not_elem_of_cons in Hni. destruct Hni as [Hne Hni].
  cbn [foldl]. rewrite IH by done. unfold store. cbn [fst snd]. rewrite Hx.
  by apply getattr_setattr_other.
Qed.

(** C6, as the code has it: the parser declares exactly the six options
    [--input_artifact], [--output_artifact], [--output_type],
    [--output_description], [--min_price] and [--max_price], the first
    four read as [str] and the last two as [float]; none of them is
    required.  The empty command line parses, to a namespace of [None]s;
    any selection of the options, in any order, each with a value its
    type accepts, parses, and an option left out stays [None].  A
    [--min_price] or [--max_price] value is what [float] makes of it,
    and parsing exits with status 2 when [float] rejects it. *)
Theorem C6_options_declared_not_required :
  option_string <$> parser
  = [ "--input_artifact"; "--output_artifact"; "--output_type";
      "--output_description"; "--min_price"; "--max_price" ]
  /\ type <$> parser = [TStr; TStr; TStr; TStr; TFloat; TFloat]
  /\ Forall (fun a => required a = false) parser
  /\ parse_args [] = Some (Parsed empty_namespace)
  /\ (forall given,
        Forall (fun av => av.1 ∈ parser /\ classify parser av.2 = Plain
                          /\ is_Some (convert (type av.1) av.2)) given ->
        exists ns,
          parse_args (given ≫= (fun av => [option_string av.1; av.2])) = Some (Parsed ns)
          /\ forall a, a ∈ parser -> a ∉ given.*1 -> getattr ns (dest a) = None)
  /\ (forall v,
        classify parser v = Plain ->
        parse_args ["--min_price"; v]
        = Some match py_float v with
               | Some x =>
                   Parsed {| input_artifact := None; output_artifact := None;
                             output_type := None; output_description := None;
                             min_price := Some x; max_price := None |}
               | None => SystemExit 2
               end)
  /\ (forall v,
        classify parser v = Plain ->
        parse_args ["--max_price"; v]
        = Some match py_float v with
               | Some x =>
                   Parsed {| input_artifact := None; output_artifact := None;
                             output_type := None; output_description := None;
                             min_price := None; max_price := Some x |}
               | None => SystemExit 2
               end).
Proof.
  split_and!; try reflexivity.
  - unfold parser. repeat constructor.
  - intros given Hg. exists (foldl store empty_namespace given).
    unfold parse_args. fold (argv_of given).
    rewrite in_fragment_given, consume_given by done. split; [done|].
    intros a Ha Hni. rewrite getattr_foldl_store by done. by apply getattr_empty.
  - intros v Hv. unfold parse_args. cbn [forallb consume]. unfold in_fragment.
    rewrite !Hv.
    set (c := classify parser "--min_price"). vm_compute in c. subst c.
    cbn. by destruct (py_float v).
  - intros v Hv. unfold parse_args. cbn [forallb consume]. unfold in_fragment.
    rewrite !Hv.
    set (c := classify parser "--max_price"). vm_compute in c. subst c.
    cbn. by destruct (py_float v).
Qed.

End CommandLine.

(** Nothing given, and everything but [--max_price] given: both parse.
    With only the description left out the whole stage runs and the
    process exits with 0. *)
Lemma C6_counterexample :
  @parse_args Demo.python [] = Some (Parsed empty_namespace)
  /\ @parse_args Demo.python
       [ "--input_artifact"; "sample.csv:latest";
         "--output_artifact"; "clean_sample.csv";
         "--output_type"; "clean_sample";
         "--output_description"; "cleaned";
         "--min_price"; "50" ]
     = Some (Parsed {| input_artifact := Some "sample.csv:latest";
                       output_artifact := Some "clean_sample.csv";
                       output_type := Some "clean_sample";
                       output_description := Some "cleaned";
                       min_price := Some 50%float;
                       max_price := None |})
  /\ fst <$> @main Demo.python Demo.pandas Demo.clock Demo.wandb Demo.disk
       [ "--input_artifact"; "sample.csv:latest";
         "--output_artifact"; "clean_sample.csv";
         "--output_type"; "clean_sample";
         "--min_price"; "50";
         "--max_price"; "500" ] initial
     = Some 0%Z.
Proof. split_and!; vm_compute; reflexivity. Qed.

(** Options may come in any order; a value [float] rejects, a missing
    value and a stray word end the process with status 2, [-h] with 0. *)
Example parse_args_examples :
  @parse_args Demo.python ["--max_price"; "500"; "--min_price"; "50"]
  = Some (Parsed {| input_artifact := None; output_artifact := None;
                    output_type := None; output_description := None;
                    min_price := Some 50%float; max_price := Some 500%float |})
  /\ @parse_args Demo.python ["--min_price"; "cheap"] = Some (SystemExit 2)
  /\ @parse_args Demo.python ["--min_price"] = Some (SystemExit 2)
  /\ @parse_args Demo.python ["--min_price"; "50"; "extra"] = Some (SystemExit 2)
  /\ @parse_args Demo.python ["--min_price"; "50"; "-h"] = Some (SystemExit 0)
  /\ @parse_args Demo.python ["--min"; "50"] = None.
Proof. split_and!; vm_compute; reflexivity. Qed.

Lemma C6_witness :
  Forall (fun av => av.1 ∈ parser /\ classify parser av.2 = Plain
                    /\ is_Some (@convert Demo.python (type av.1) av.2))
    [ (add_argument "--min_price" TFloat "Minimum price value to filter the dataset", "50");
      (add_argument "--input_artifact" TStr "Name of the input artifact to be cleaned",
       "sample.csv:latest") ]
  /\ exists ns,
       @parse_args Demo.python
         ["--min_price"; "50"; "--input_artifact"; "sample.csv:latest"]
       = Some (Parsed ns)
       /\ forall a, a ∈ parser ->
            a ∉ [ add_argument "--min_price" TFloat
                    "Minimum price value to filter the dataset";
                  add_argument "--input_artifact" TStr
                    "Name of the input artifact to be cleaned" ] ->
            getattr ns (dest a) = None.
Proof.
  assert (Forall (fun av => av.1 ∈ parser /\ classify parser av.2 = Plain
                            /\ is_Some (@convert Demo.python (type av.1) av.2))
            [ (add_argument "--min_price" TFloat
                 "Minimum price value to filter the dataset", "50");
              (add_argument "--input_artifact" TStr
                 "Name of the input artifact to be cleaned", "sample.csv:latest") ])
    as Hg.
  { apply Forall_cons; split; [|apply Forall_cons; split; [|by apply Forall_nil]];
      cbn [fst snd]; (split; [|split]); try reflexivity.
    - unfold parser. do 4 right. left.
    - eexists. vm_compute. reflexivity.
    - unfold parser. left.
    - eexists. reflexivity. }
  split; [exact Hg|].
  exact (proj1 (proj2 (proj2 (proj2 (proj2
           (@C6_options_declared_not_required Demo.python))))) _ Hg).
Defined.

(** * Further properties of the driver *)

Section DriverFootprint.
Context `{!Main.Host} `{!Main.Mlflow}.








Lemma keeps_settings_ret : keeps_settings (ret tt).
Proof. by intros s. Qed.

Lemma keeps_settings_json_dump path c : keeps_settings (Main.json_dump path c).
Proof. by intros s. Qed.

Lemma keeps_settings_mlflow_run stage i : keeps_settings (Main.mlflow_run stage i).
Proof.
  intros s. unfold Main.mlflow_run. by destruct (Main.run_succeeds _ _).
Qed.

Lemma keeps_settings_bind m1 m2 :
  keeps_settings m1 -> keeps_settings m2 -> keeps_settings (bind m1 (fun _ => m2)).
Proof.
  intros K1 K2 s. unfold bind. specialize (K1 s).
  destruct (m1 s) as [[[]|e] s1]; cbn in *; [|done].
  destruct (K2 s1) as (-> & -> & ->). done.
Qed.

Lemma keeps_settings_when (c : bool) m :
  keeps_settings m -> keeps_settings (when c m).
Proof. destruct c; [done | intros _; apply keeps_settings_ret]. Qed.

Lemma run_steps_keeps_settings config active :
  keeps_settings (Main.run_steps config active).
Proof.
  unfold Main.run_steps.
  repeat apply keeps_settings_bind; apply keeps_settings_when;
    try apply keeps_settings_mlflow_run.
  apply keeps_settings_bind;
    [apply keeps_settings_json_dump | apply keeps_settings_mlflow_run].
Qed.

Lemma keeps_files_ret : keeps_files (ret tt).
Proof. by intros s. Qed.

Lemma keeps_files_mlflow_run stage i : keeps_files (Main.mlflow_run stage i).
Proof.
  intros s. unfold Main.mlflow_run. by destruct (Main.run_succeeds _ _).
Qed.

Lemma keeps_files_bind m1 m2 :
  keeps_files m1 -> keeps_files m2 -> keeps_files (bind m1 (fun _ => m2)).
Proof.
  intros K1 K2 s. unfold bind. specialize (K1 s).
  destruct (m1 s) as [[[]|e] s1]; cbn in *; [|done].
  by rewrite K2.
Qed.

Lemma keeps_files_when (c : bool) m : keeps_files m -> keeps_files (when c m).
Proof. destruct c; [done | intros _; apply keeps_files_ret]. Qed.

Lemma string_prefix_append a b : String.prefix a (a +:+ b) = true.
Proof.
  induction a as [|c a IH]; [by destruct b|].
  change (match ascii_dec c c with
          | left _ => String.prefix a (a +:+ b)
          | right _ => false
          end = true).
  destruct (ascii_dec c c); [exact IH | done].
Qed.

Lemma string_append_assoc a b c : (a +:+ b) +:+ c = a +:+ (b +:+ c).
Proof.
  induction a as [|x a IH]; [done|].
  change (String x ((a +:+ b) +:+ c) = String x (a +:+ (b +:+ c))).
  by rewrite IH.
Qed.

(** A file joined to a directory lies inside it. *)
Lemma inside_join dir name :
  dir <> "" -> String.prefix "/" name = false ->
  Main.inside dir (Py.os_path_join dir name) = true.
Proof.
  intros Hdir Hname. unfold Main.inside, Py.os_path_join. rewrite Hname.
  destruct dir as [|c dir]; [done|]. cbn [String.eqb orb].
  destruct (Py.endswith_sep (String c dir)).
  - apply string_prefix_append.
  - rewrite <- string_append_assoc. apply string_prefix_append.
Qed.

Lemma keeps_files_json_dump name c :
  Main.tmp_dir <> "" -> String.prefix "/" name = false ->
  keeps_files (Main.json_dump (Py.os_path_join Main.tmp_dir name) c).
Proof.
  intros Hdir Hname s. unfold Main.json_dump, modify. cbn [fst snd Main.files].
  apply map_filter_insert_not. intros y Hy. cbn [fst] in Hy.
  rewrite inside_join in Hy by done. discriminate.
Qed.

Lemma run_steps_keeps_files config active :
  Main.tmp_dir <> "" -> keeps_files (Main.run_steps config active).
Proof.
  intros Hdir. unfold Main.run_steps.
  repeat apply keeps_files_bind; apply keeps_files_when;
    try apply keeps_files_mlflow_run.
  apply keeps_files_bind;
    [by apply keeps_files_json_dump | apply keeps_files_mlflow_run].
Qed.

Lemma selected_sublist active : selected active `sublist_of` Main.stage_names.
Proof. apply sublist_filter. Qed.

Lemma stage_names_NoDup : NoDup Main.stage_names.
Proof. compute_done. Qed.

(** X1: for every configuration and every runner, the calls [go] makes
    are an initial part of the known stage names found in the active
    steps, taken in the order of [go]'s [if] statements, and all of them
    when [go] returns normally; so stages run in canonical order, each
    at most once, however the list orders or repeats them. *)
Theorem go_calls_listed_stages_in_canonical_order config s :
  exists done,
    Main.invoked (Main.go config s).2 = Main.invoked s ++ done
    /\ done `prefix_of`
         filter (fun n => n ∈ Main.active_steps_of (Main.main_steps config))
                Main.stage_names
    /\ ((Main.go config s).1 = Ok tt ->
        done = filter (fun n => n ∈ Main.active_steps_of (Main.main_steps config))
                      Main.stage_names)
    /\ done `sublist_of` Main.stage_names
    /\ NoDup done.
Proof.
  destruct (go_traces config s) as (d & E & P & F & _).
  assert (d `sublist_of` Main.stage_names) as Hsub.
  { destruct P as [k Hk]. etrans; [|apply selected_sublist].
    rewrite Hk. by apply sublist_inserts_r. }
  exists d. split_and!; try done.
  eapply sublist_NoDup; [apply stage_names_NoDup | done].
Qed.

(** X2: [go] depends on [main.steps] only through which known stage
    names are active: two settings that select the same known names
    (another order, repeated or unknown names, or ["all"] against the
    five names spelled out) give the same result and the same state. *)
Theorem go_depends_on_listed_names_only config steps1 steps2 s :
  (forall n, n ∈ Main.stage_names ->
     n ∈ Main.active_steps_of steps1 <-> n ∈ Main.active_steps_of steps2) ->
  Main.go (with_steps config steps1) s = Main.go (with_steps config steps2) s.
Proof.
  intros Hsame.
  assert (forall n, n ∈ Main.stage_names ->
            Py.contains n (Main.active_steps_of steps1)
            = Py.contains n (Main.active_steps_of steps2)) as Hc.
  { intros n Hn. apply bool_decide_ext. by apply Hsame. }
  unfold Main.go. cbn [with_steps Main.main_steps Main.main_project_name
                       Main.main_experiment_name].
  unfold Main.run_steps.
  rewrite !Hc by (apply stage_names_known; tauto).
  done.
Qed.


Lemma go_prepared config s :
  Main.go config s
  = ((Main.run_steps config (Main.active_steps_of (Main.main_steps config))
        (prepared config s)).1,
     Main.remove_tmp_dir
       (Main.run_steps config (Main.active_steps_of (Main.main_steps config))
          (prepared config s)).2).
Proof.
  unfold Main.go, bind, Main.setenv, Main.set_tracking_uri, Main.set_experiment,
    modify. apply finally_run.
Qed.

(** X4: when [go] is over, normally or not, nothing is left inside the
    temporary directory, and the files outside it are as they were. *)
Theorem go_leaves_no_temporary_file config s :
  Main.tmp_dir <> "" ->
  Main.files (Main.go config s).2
  = filter (fun kv => Main.inside Main.tmp_dir kv.1 = false) (Main.files s)
  /\ forall path, Main.inside Main.tmp_dir path = true ->
       Main.files (Main.go config s).2 !! path = None.
Proof.
  intros Hdir.
  assert (Main.files (Main.go config s).2
          = filter (fun kv => Main.inside Main.tmp_dir kv.1 = false) (Main.files s))
    as Hfiles.
  { rewrite go_prepared. cbn [fst snd Main.remove_tmp_dir Main.files].
    by rewrite (run_steps_keeps_files config _ Hdir (prepared config s)). }
  split; [done|]. intros path Hin. rewrite Hfiles.
  apply map_lookup_filter_None. right. intros x _ Hx. cbn [fst] in Hx. congruence.
Qed.

(** X5: whatever the stages do, [go] leaves [WANDB_PROJECT] and
    [WANDB_RUN_GROUP] set from the configuration (the other variables
    untouched), the tracking URI pointing at [mlruns] under the script's
    directory, and the experiment set. *)
Theorem go_settings_always_applied config s :
  Main.environ (Main.go config s).2
  = <["WANDB_RUN_GROUP" := Main.main_experiment_name config]>
      (<["WANDB_PROJECT" := Main.main_project_name config]> (Main.environ s))
  /\ Main.tracking_uri (Main.go config s).2
     = Some ("file:///" +:+ Py.os_path_join Main.root_path "mlruns")
  /\ Main.experiment (Main.go config s).2 = Some (Main.main_experiment_name config).
Proof.
  rewrite go_prepared.
  cbn [fst snd Main.remove_tmp_dir Main.environ Main.tracking_uri Main.experiment].
  by destruct (run_steps_keeps_settings config
                 (Main.active_steps_of (Main.main_steps config))
                 (prepared config s)) as (-> & -> & ->).
Qed.

Lemma hands_config_ret config : hands_config config (ret tt).
Proof.
  intros s. split; [done|]. exists []. cbn. rewrite app_nil_r.
  split; [done|]. by intros call ?%elem_of_nil.
Qed.

Lemma hands_config_mlflow_run config stage i :
  stage <> "train_random_forest" -> hands_config config (Main.mlflow_run stage i).
Proof.
  intros Hstage s. unfold Main.mlflow_run.
  split; [by destruct (Main.run_succeeds _ _)|].
  exists [(stage, i)]. split; [by destruct (Main.run_succeeds _ _)|].
  intros call [= <- _]%list_elem_of_singleton. done.
Qed.

Lemma hands_config_train config i :
  ("rf_config", Main.VStr rf_config_path) ∈ Main.parameters i ->
  hands_config config
    (bind (Main.json_dump rf_config_path (Main.modeling_random_forest config))
          (fun _ => Main.mlflow_run "train_random_forest" i)).
Proof.
  intros Hparam s. unfold bind, Main.json_dump, modify, Main.mlflow_run.
  cbn [fst snd Main.runs Main.files].
  assert (<[rf_config_path := Main.modeling_random_forest config]> (Main.files s)
            !! rf_config_path = Some (Main.modeling_random_forest config)) as Hfile
    by apply lookup_insert_eq.
  split; [by destruct (Main.run_succeeds _ _)|].
  exists [("train_random_forest", i)]. split; [by destruct (Main.run_succeeds _ _)|].
  intros call [= <-]%list_elem_of_singleton.
  split; [by destruct (Main.run_succeeds _ _) | done].
Qed.

Lemma hands_config_bind config m1 m2 :
  hands_config config m1 -> hands_config config m2 ->
  hands_config config (bind m1 (fun _ => m2)).
Proof.
  intros C1 C2 s. unfold bind. destruct (C1 s) as (K1 & new1 & E1 & T1).
  destruct (m1 s) as [[[]|e] s1]; cbn [fst snd] in *.
  - destruct (C2 s1) as (K2 & new2 & E2 & T2). split; [by auto|].
    exists (new1 ++ new2). split; [by rewrite E2, E1, app_assoc|].
    intros call [Hin|Hin]%elem_of_app; [|by apply T2].
    destruct (T1 call Hin) as [Hfile Hparam]. split; [by apply K2 | done].
  - split; [done|]. by exists new1.
Qed.

Lemma hands_config_when config (c : bool) m :
  hands_config config m -> hands_config config (when c m).
Proof. destruct c; [done | intros _; apply hands_config_ret]. Qed.

(** X6: inside the [with] block, whenever the training stage has been
    called, [rf_config.json] in the temporary directory holds
    [modeling.random_forest], and the call's [rf_config] parameter is
    the path of that file. *)
Theorem training_stage_is_handed_its_configuration config active s :
  exists new,
    Main.runs (Main.run_steps config active s).2 = Main.runs s ++ new
    /\ forall call,
         ("train_random_forest", call) ∈ new ->
         Main.files (Main.run_steps config active s).2
           !! Py.os_path_join Main.tmp_dir "rf_config.json"
         = Some (Main.modeling_random_forest config)
         /\ ("rf_config", Main.VStr (Py.os_path_join Main.tmp_dir "rf_config.json"))
              ∈ Main.parameters call.
Proof.
  assert (hands_config config (Main.run_steps config active)) as Hc.
  { unfold Main.run_steps.
    repeat apply hands_config_bind; apply hands_config_when;
      try (by apply hands_config_mlflow_run).
    apply hands_config_train. cbn [Main.parameters]. do 4 right. left. }
  exact (proj2 (Hc s)).
Qed.

End DriverFootprint.

(** * Further properties of the cleaning stage *)

Section FloatReflexivity.

Lemma float_leb_refl x : PrimFloat.is_nan x = false -> PrimFloat.leb x x = true.
Proof.
  unfold PrimFloat.is_nan.
  rewrite FloatAxioms.leb_spec, FloatAxioms.eqb_spec. unfold SFleb, SFeqb.
  by destruct (SFcompare (Prim2SF x) (Prim2SF x)) as [[]|].
Qed.

End FloatReflexivity.

Lemma Forall2_elem_of_l {A B} (P : A -> B -> Prop) l k x :
  Forall2 P l k -> x ∈ l -> exists y, y ∈ k /\ P x y.
Proof.
  induction 1 as [|x' y l k Hxy _ IH]; [by intros ?%elem_of_nil|].
  intros [->|Hx]%elem_of_cons.
  - exists y. split; [left | done].
  - destruct (IH Hx) as (y' & Hy' & HP). exists y'. split; [by right | done].
Qed.

Section StageOutcome.
Context `{!Pandas} `{!Clock} `{!Wandb} `{!Disk}.

Lemma cleaned_output_qualifying args s out :
  cleaned_output args s out ->
  exists df,
    loaded args = Some df
    /\ Forall2 (converted (last_review <$> filter (fun r => in_price_range args r) df))
         (filter (fun r => in_price_range args r && in_box r) df) out.
Proof.
  intros (df & dated & Hl & Hc & ->)%cleaned_output_inv.
  exists df. split; [done|].
  assert (filter (fun r => in_price_range args r && in_box r) df
          = filter (fun r => in_box r) (filter (fun r => in_price_range args r) df))
    as ->.
  { rewrite list_filter_filter. apply list_filter_iff. intros r.
    rewrite andb_True. tauto. }
  by apply Forall2_converted_in_box.
Qed.

(** X7: the output holds exactly the input rows that are in the price
    range, the price compared as [float64], and in the bounding box: one
    output row for each of them, in the order of the input, with the
    other columns as they were and the review date read as [to_datetime]
    reads the cells of the column it is given.  No qualifying row is
    lost. *)
Theorem cleaning_keeps_exactly_the_qualifying_rows args s out :
  cleaned_output args s out ->
  exists df,
    loaded args = Some df
    /\ Forall2
         (fun r r' =>
            price r' = price r /\ longitude r' = longitude r
            /\ latitude r' = latitude r /\ other r' = other r
            /\ to_datetime_cell
                 (last_review <$> filter (fun r => in_price_range args r) df)
                 (last_review r)
               = Ok (last_review r'))
         (filter
            (fun r =>
               (ge_scalar (as_float64 (price r)) (min_price args)
                && le_scalar (as_float64 (price r)) (max_price args))
               && in_box r) df)
         out.
Proof.
  intros (df & Hl & Hall)%cleaned_output_qualifying.
  exists df. split; [done|].
  eapply Forall2_impl; [exact Hall|].
  intros r r' [Hu Hd]. unfold untouched in Hu. injection Hu as -> -> -> ->. done.
Qed.

(** X8: the thresholds are kept: an input row whose price, as
    [float64], is exactly [min_price] or exactly [max_price], inside the
    box, is in the output (when [min_price <= max_price]). *)
Theorem rows_at_a_threshold_are_kept args s out df lo hi r :
  cleaned_output args s out ->
  loaded args = Some df ->
  min_price args = Some lo ->
  max_price args = Some hi ->
  PrimFloat.leb lo hi = true ->
  r ∈ df ->
  as_float64 (price r) = lo \/ as_float64 (price r) = hi ->
  in_box r = true ->
  exists r', r' ∈ out /\ price r' = price r /\ other r' = other r.
Proof.
  intros Hout Hl Hlo Hhi Hle Hr Hat Hbox.
  destruct (cleaned_output_qualifying _ _ _ Hout) as (df' & Hl' & Hall).
  rewrite Hl in Hl'. injection Hl' as <-.
  destruct (Forall2_elem_of_l _ _ _ r Hall) as (r' & Hr' & Hu & _).
  - apply list_elem_of_filter. split; [|done].
    apply Is_true_true, andb_true_iff. split; [|done].
    unfold in_price_range. rewrite Hlo, Hhi. cbn. apply andb_true_iff.
    destruct Hat as [-> | ->]; split; try done.
    + apply float_leb_refl. by eapply leb_not_nan_l.
    + apply float_leb_refl. by eapply leb_not_nan_r.
  - exists r'. unfold untouched in Hu. injection Hu as -> _ _ ->. done.
Qed.

(** X9: with [min_price] or [max_price] left [None] (its flag not
    given), a run that completes publishes an empty table: pandas
    answers a comparison with [None] by [False] on every row. *)
Theorem omitted_threshold_empties_the_output args s out :
  min_price args = None \/ max_price args = None ->
  cleaned_output args s out ->
  out = [].
Proof.
  intros Hnone (df & kept & _ & _ & Hconv & Hprice & _)%cleaned_output_kept.
  destruct out as [|r out]; [done|]. exfalso.
  destruct (Forall2_elem_of_r _ _ _ r Hconv) as (r0 & Hr0 & _); [by left|].
  rewrite Forall_forall in Hprice. specialize (Hprice r0 Hr0).
  unfold in_price_range in Hprice. apply Is_true_true, andb_true_iff in Hprice.
  destruct Hprice as [Hge Hle], Hnone as [Hn | Hn]; rewrite Hn in *; done.
Qed.

(** X10: a run that raises publishes nothing.  When it fails before
    the write (the input is not found or not read, a review date is
    refused) it has written no file; when it fails after it (the
    artifact is refused, with [TypeError] exactly when no output name
    was given, or the upload fails) [clean_sample.csv] has been written
    and stays, other files being as before; and it never fails on the
    file it has just written ([add_file] finds it). *)
Theorem failed_run_publishes_nothing args s e :
  (go args s).1 = Raise e ->
  logged (go args s).2 = logged s
  /\ ((((exists ref, e = ArtifactNotFound ref) \/ (exists path, e = ReadError path)
        \/ (exists t, e = DateParseError t))
       /\ fs (go args s).2 = fs s)
      \/ (((e = TypeError /\ output_artifact args = None)
           \/ (exists name, e = ValueError name /\ output_artifact args = Some name)
           \/ e = UploadError)
          /\ exists out, fs (go args s).2 = <["clean_sample.csv" := out]> (fs s)))
  /\ (forall path, e <> FileNotFoundError path).
Proof.
  rewrite go_unfold.
  destruct (use_artifact_file (input_artifact args)) as [path|].
  2:{ intros [= <-]. split_and!; try done. left. split; [|done]. left. by eexists. }
  destruct (read_csv_file path) as [df|].
  2:{ intros [= <-]. split_and!; try done. left. split; [|done].
      right. left. by eexists. }
  destruct (to_datetime _) as [dates|e'] eqn:Hd.
  - cbn zeta. destruct (output_artifact args) as [name|].
    + destruct (artifact_accepted name _ _).
      * destruct (log_artifact_ok _); [done|]. intros [= <-].
        split_and!; try done. right. split; [by do 2 right | by eexists].
      * intros [= <-]. split_and!; try done. right.
        split; [right; left; by eexists | by eexists].
    + intros [= <-]. split_and!; try done. right. split; [by left | by eexists].
  - intros [= <-]. apply to_datetime_Raise in Hd as (t & _ & ->).
    split_and!; try done. left. split; [|done]. do 2 right. by eexists.
Qed.

(** X18: no option is required, but a run whose arguments hold no
    output name never completes: it fails before the write, leaving the
    files as they were, or it writes [clean_sample.csv] and then raises
    [TypeError] in [wandb.Artifact]; nothing is published. *)
Theorem run_without_output_name_never_completes args s :
  output_artifact args = None ->
  exists e,
    (go args s).1 = Raise e
    /\ logged (go args s).2 = logged s
    /\ ((e = TypeError
         /\ exists out, fs (go args s).2 = <["clean_sample.csv" := out]> (fs s))
        \/ (e <> TypeError /\ fs (go args s).2 = fs s)).
Proof.
  intros Hname. rewrite go_unfold.
  destruct (use_artifact_file (input_artifact args)) as [path|];
    [|eexists; split_and!; [done..|by right]].
  destruct (read_csv_file path) as [df|];
    [|eexists; split_and!; [done..|by right]].
  destruct (to_datetime _) as [dates|e] eqn:Hd.
  - cbn zeta. rewrite Hname. eexists. split_and!; [done..|].
    left. split; [done | by eexists].
  - apply to_datetime_Raise in Hd as (t & _ & ->).
    eexists. split_and!; [done..|by right].
Qed.

(** X12: a run that completes changes exactly this: the W&B run has
    job type [basic_cleaning] and the arguments as its configuration,
    [clean_sample.csv] holds the output (other files are untouched), and
    one artifact is added, with the name, type and description of the
    command line and that one file. *)
Theorem completed_run_footprint args s out :
  cleaned_output args s out ->
  (go args s).2
  = {| job_type := Some "basic_cleaning";
       run_config := Some args;
       fs := <["clean_sample.csv" := out]> (fs s);
       logged :=
         logged s
         ++ [ {| art_name := output_artifact args;
                 art_type := output_type args;
                 art_description := output_description args;
                 art_files := [("clean_sample.csv", out)] |} ] |}.
Proof.
  intros (Hok & Hfs & _).
  destruct (go_Ok_inv _ _ Hok) as (df & dates & _ & _ & Hs).
  rewrite Hs in Hfs. cbn in Hfs. rewrite lookup_insert_eq in Hfs.
  injection Hfs as <-. exact Hs.
Qed.

End StageOutcome.

(** X11: the stage looks at the rows inside the price range only: two
    runs, on two tables that hold the same rows inside the price range,
    end alike, with the same result (the same exception, if any) and the
    same state.  Whatever stands in a row outside the range, a bad
    review date too, is without effect. *)
Theorem rows_outside_the_price_range_are_without_effect
    {P : Pandas} {K : Clock} {W : Wandb} {D1 D2 : Disk} args s df1 df2 :
  @loaded W D1 args = Some df1 ->
  @loaded W D2 args = Some df2 ->
  filter (fun r => in_price_range args r) df1
  = filter (fun r => in_price_range args r) df2 ->
  @go P K W D1 args s = @go P K W D2 args s.
Proof.
  intros Hl1 Hl2 Hsame. rewrite !go_unfold. unfold loaded in Hl1, Hl2.
  destruct (use_artifact_file (input_artifact args)) as [path|]; [|done].
  cbn in Hl1, Hl2. rewrite Hl1, Hl2, Hsame. done.
Qed.

(** * Further properties of the command line *)

(** Induction for a function that takes one or two elements at a time. *)
Lemma list_ind_two {A} (P : list A -> Prop) :
  P [] ->
  (forall x, P [x]) ->
  (forall x y l, P l -> P (y :: l) -> P (x :: y :: l)) ->
  forall l, P l.
Proof.
  intros Hnil Hone Hstep l.
  assert (P l /\ forall x, P (x :: l)) as [Hl _]; [|exact Hl].
  induction l as [|y l [IH1 IH2]]; [by split|].
  split; [apply IH2|]. intros x. by apply Hstep.
Qed.

Section CommandLineOutcome.
Context `{!Python}.

Lemma classify_Flag tok a :
  classify parser tok = Flag a -> a ∈ parser /\ option_string a = tok.
Proof.
  unfold classify.
  destruct (String.eqb tok "-h" || String.eqb tok "--help"); [done|].
  destruct (List.find _ parser) as [a'|] eqn:Hfind;
    [|by destruct (String.prefix "-" tok)].
  intros [= <-]. apply find_some in Hfind as [Hin Heq].
  split; [by apply list_elem_of_In | by apply String.eqb_eq].
Qed.

Lemma classify_Help tok :
  classify parser tok = Help -> tok = "-h" \/ tok = "--help".
Proof.
  unfold classify.
  destruct (String.eqb tok "-h") eqn:E1; [left; by apply String.eqb_eq|].
  destruct (String.eqb tok "--help") eqn:E2; [right; by apply String.eqb_eq|].
  cbn [orb]. destruct (List.find _ parser); [done|].
  by destruct (String.prefix "-" tok).
Qed.

Lemma consume_cons tok rest ns seen extras :
  consume parser (tok :: rest) ns seen extras
  = match classify parser tok with
    | Help => SystemExit 0
    | Plain | Outside => consume parser rest ns seen true
    | Flag a =>
        match rest with
        | [] => SystemExit 2
        | v :: rest' =>
            match classify parser v with
            | Plain =>
                match convert (type a) v with
                | None => SystemExit 2
                | Some x =>
                    consume parser rest' (setattr ns (dest a) x) (dest a :: seen) extras
                end
            | _ => SystemExit 2
            end
        end
    end.
Proof. reflexivity. Qed.

(** Once a stray token was seen, the command line is not accepted. *)
Lemma consume_extras argv ns seen ns' :
  consume parser argv ns seen true <> Parsed ns'.
Proof.
  revert ns seen.
  induction argv as [|tok|tok v rest IH1 IH2] using list_ind_two; intros ns seen.
  - done.
  - cbn [consume]. destruct (classify parser tok); done.
  - rewrite consume_cons. destruct (classify parser tok) as [a| | |]; try done.
    destruct (classify parser v); try done.
    destruct (convert (type a) v); [apply IH1 | done].
Qed.

Lemma consume_Parsed argv ns seen ns' :
  consume parser argv ns seen false = Parsed ns' ->
  exists given,
    Forall well_given given /\ argv = argv_of given /\ ns' = foldl store ns given.
Proof.
  revert ns seen.
  induction argv as [|tok|tok v rest IH1 IH2] using list_ind_two; intros ns seen.
  - cbn. intros [= <-]. by exists [].
  - cbn [consume]. destruct (classify parser tok); done.
  - rewrite consume_cons.
    destruct (classify parser tok) as [a| | |] eqn:Htok; try done.
    + destruct (classify parser v) eqn:Hv; try done.
      destruct (convert (type a) v) as [x|] eqn:Hx; [|done].
      intros (given & Hg & -> & ->)%IH1.
      apply classify_Flag in Htok as [Ha <-].
      exists ((a, v) :: given). split_and!.
      * constructor; [|done]. by split_and!.
      * done.
      * cbn [foldl].
        assert (store ns (a, v) = setattr ns (dest a) x) as ->; [|done].
        unfold store. cbn [fst snd]. by rewrite Hx.
    + by intros ?%consume_extras.
    + by intros ?%consume_extras.
Qed.

Lemma parse_args_given given :
  Forall well_given given ->
  parse_args (argv_of given) = Some (Parsed (foldl store empty_namespace given)).
Proof.
  intros Hg. unfold parse_args. by rewrite in_fragment_given, consume_given.
Qed.

(** X13: [parse_args] accepts a command line exactly when it is a
    sequence of declared options, each followed by a value that does not
    start with a dash and that the option's type accepts; the namespace
    is then the options stored from left to right. *)
Theorem parse_args_accepts_exactly_option_value_pairs argv ns :
  parse_args argv = Some (Parsed ns)
  <-> exists given,
        Forall well_given given
        /\ argv = argv_of given
        /\ ns = foldl store empty_namespace given.
Proof.
  unfold parse_args. split.
  - destruct (forallb _ argv); [|done]. intros [= Hc]. by eapply consume_Parsed.
  - intros (given & Hg & -> & ->). unfold parse_args in *.
    by rewrite in_fragment_given, consume_given.
Qed.

Lemma consume_SystemExit argv ns seen extras code :
  consume parser argv ns seen extras = SystemExit code ->
  code = 2%Z \/ (code = 0%Z /\ ("-h" ∈ argv \/ "--help" ∈ argv)).
Proof.
  revert ns seen extras.
  induction argv as [|tok|tok v rest IH1 IH2] using list_ind_two;
    intros ns seen extras.
  - cbn. destruct extras; intros [= <-]; by left.
  - cbn [consume]. destruct (classify parser tok) as [a| | |] eqn:Htok.
    + intros [= <-]. by left.
    + intros [= <-]. right. split; [done|].
      apply classify_Help in Htok as [-> | ->]; [left | right]; by left.
    + cbn. intros [= <-]. by left.
    + cbn. intros [= <-]. by left.
  - rewrite consume_cons. destruct (classify parser tok) as [a| | |] eqn:Htok.
    + destruct (classify parser v); try (intros [= <-]; by left).
      destruct (convert (type a) v); [|intros [= <-]; by left].
      intros [?|[? Hh]]%IH1; [by left|]. right. split; [done|].
      destruct Hh; [left | right]; by do 2 right.
    + intros [= <-]. right. split; [done|].
      apply classify_Help in Htok as [-> | ->]; [left | right]; by left.
    + intros [?|[? Hh]]%IH2; [by left|]. right. split; [done|].
      destruct Hh; [left | right]; by right.
    + intros [?|[? Hh]]%IH2; [by left|]. right. split; [done|].
      destruct Hh; [left | right]; by right.
Qed.

(** X15: on a command line made of declared option strings, [-h],
    [--help] and tokens without a leading dash, [parse_args] returns a
    namespace, or ends the process with status 2, or ends it with
    status 0, and then the command line holds [-h] or [--help]. *)
Theorem parse_args_exit_status argv :
  forallb (in_fragment parser) argv = true ->
  (exists ns, parse_args argv = Some (Parsed ns))
  \/ parse_args argv = Some (SystemExit 2)
  \/ (parse_args argv = Some (SystemExit 0) /\ ("-h" ∈ argv \/ "--help" ∈ argv)).
Proof.
  unfold parse_args. intros ->.
  destruct (consume parser argv empty_namespace [] false) as [ns|code] eqn:Hc.
  - left. by exists ns.
  - right. apply consume_SystemExit in Hc as [-> | [-> Hh]]; [by left | by right].
Qed.

Lemma getattr_setattr_same a v x ns :
  a ∈ parser -> convert (type a) v = Some x ->
  getattr (setattr ns (dest a) x) (dest a) = Some x.
Proof.
  intros Ha Hx. parser_cases Ha; cbn in Hx.
  1-4: by injection Hx as <-.
  all: destruct (py_float v); [by injection Hx as <- | done].
Qed.

(** X14: an option given with a value is stored under its [dest], and
    when an option is given more than once the last value counts. *)
Theorem last_given_value_is_stored pre a v post x :
  Forall well_given (pre ++ (a, v) :: post) ->
  a ∉ post.*1 ->
  convert (type a) v = Some x ->
  exists ns,
    parse_args (argv_of (pre ++ (a, v) :: post)) = Some (Parsed ns)
    /\ getattr ns (dest a) = Some x.
Proof.
  intros Hg Hlast Hx. eexists. split.
  - by apply parse_args_given.
  - apply Forall_app in Hg as [_ Hg]. apply Forall_cons in Hg as [(Ha & _) Hpost].
    cbn [fst] in Ha. rewrite foldl_app. cbn [foldl].
    rewrite getattr_foldl_store by done.
    unfold store at 1. cbn [fst snd]. rewrite Hx.
    by eapply getattr_setattr_same.
Qed.

End CommandLineOutcome.

(** X17: [split] cuts a string at every separator: joining the pieces
    with the separator gives the string back, no piece holds the
    separator, and there is always at least one piece. *)
Theorem split_pieces c s :
  String.concat (String c "") (Py.split c s) = s
  /\ Forall (fun w => c ∉ list_ascii_of_string w) (Py.split c s)
  /\ Py.split c s <> [].
Proof.
  assert (Py.split c s <> []) as Hne.
  { destruct s as [|a s]; [done|]. cbn.
    destruct (Ascii.eqb a c); [done|]. by destruct (Py.split c s). }
  split_and!; [| |done]; clear Hne.
  - induction s as [|a s IH]; [done|]. cbn [Py.split].
    destruct (Ascii.eqb a c) eqn:Hac.
    + apply Ascii.eqb_eq in Hac as ->.
      destruct (Py.split c s) as [|w ws] eqn:Hs.
      * destruct s as [|b s]; [done|]. cbn in Hs.
        destruct (Ascii.eqb b c); [done|]. by destruct (Py.split c s).
      * cbn in *. by rewrite IH.
    + destruct (Py.split c s) as [|w ws] eqn:Hs.
      * destruct s as [|b s]; [done|]. cbn in Hs.
        destruct (Ascii.eqb b c); [done|]. by destruct (Py.split c s).
      * cbn in *. destruct ws; cbn in *; by rewrite <- IH.
  - induction s as [|a s IH]; cbn [Py.split].
    + repeat constructor. cbn. apply not_elem_of_nil.
    + destruct (Ascii.eqb a c) eqn:Hac.
      * constructor; [cbn; apply not_elem_of_nil | exact IH].
      * apply Ascii.eqb_neq in Hac.
        destruct (Py.split c s) as [|w ws].
        -- repeat constructor. cbn. rewrite not_elem_of_cons.
           split; [done | apply not_elem_of_nil].
        -- apply Forall_cons in IH as [Hw Hws]. constructor; [|done].
           cbn. rewrite not_elem_of_cons. split; [done | exact Hw].
Qed.

(** * The further properties on the examples *)

(** ["all"] against the five names spelled out backwards. *)
Lemma go_depends_on_listed_names_only_witness :
  (forall n, n ∈ Main.stage_names ->
     n ∈ Main.active_steps_of "all"
     <-> n ∈ Main.active_steps_of
               "train_random_forest,data_split,data_check,basic_cleaning,download")
  /\ @Main.go Demo.host Demo.runner (with_steps (Demo.config "") "all") Main.initial
     = @Main.go Demo.host Demo.runner
         (with_steps (Demo.config "")
            "train_random_forest,data_split,data_check,basic_cleaning,download")
         Main.initial.
Proof.
  assert (forall n, n ∈ Main.stage_names ->
            n ∈ Main.active_steps_of "all"
            <-> n ∈ Main.active_steps_of
                      "train_random_forest,data_split,data_check,basic_cleaning,download")
    as Hsame.
  { intros n Hn. apply stage_names_known in Hn.
    destruct Hn as [->|[->|[->|[->|[->| ->]]]]];
      first [ split; intros _; compute_done
            | split; intros Hin; contradict Hin; compute_done ]. }
  split; [exact Hsame|].
  exact (@go_depends_on_listed_names_only Demo.host Demo.runner (Demo.config "")
           "all" "train_random_forest,data_split,data_check,basic_cleaning,download"
           Main.initial Hsame).
Defined.


Lemma go_leaves_no_temporary_file_witness :
  @Main.tmp_dir Demo.host <> ""
  /\ Main.files
       (@Main.go Demo.host Demo.runner (Demo.config "train_random_forest")
          Main.initial).2
     = filter (fun kv => Main.inside (@Main.tmp_dir Demo.host) kv.1 = false)
              (Main.files Main.initial)
  /\ forall path, Main.inside (@Main.tmp_dir Demo.host) path = true ->
       Main.files
         (@Main.go Demo.host Demo.runner (Demo.config "train_random_forest")
            Main.initial).2 !! path = None.
Proof.
  assert (@Main.tmp_dir Demo.host <> "") as Hdir by discriminate.
  split; [exact Hdir|].
  exact (@go_leaves_no_temporary_file Demo.host Demo.runner
           (Demo.config "train_random_forest") Main.initial Hdir).
Defined.

(** While the block runs, the file is there. *)
Example run_steps_writes_rf_config :
  Main.files
    (@Main.run_steps Demo.host Demo.runner (Demo.config "") ["train_random_forest"]
       Main.initial).2 !! "/tmp/tmpk3v9x2/rf_config.json"
  = Some [("n_estimators", Main.VInt 100); ("max_depth", Main.VInt 15)].
Proof. vm_compute. reflexivity. Qed.

#[warnings="-inexact-float"]
Lemma cleaning_keeps_exactly_the_qualifying_rows_witness :
  @cleaned_output Demo.pandas Demo.clock Demo.wandb Demo.disk
    (Demo.args "sample.csv:latest" 50 500) initial Demo.clean_sample
  /\ exists df,
       @loaded Demo.wandb Demo.disk (Demo.args "sample.csv:latest" 50 500) = Some df
       /\ Forall2
            (fun r r' =>
               price r' = price r /\ longitude r' = longitude r
               /\ latitude r' = latitude r /\ other r' = other r
               /\ @to_datetime_cell Demo.pandas Demo.clock
                    (last_review
                       <$> filter
                             (fun r =>
                                in_price_range (Demo.args "sample.csv:latest" 50 500) r)
                             df)
                    (last_review r)
                  = Ok (last_review r'))
            (filter (fun r => in_price_range (Demo.args "sample.csv:latest" 50 500) r
                              && in_box r) df)
            Demo.clean_sample.
Proof.
  split; [exact demo_cleaned_output|].
  exact (@cleaning_keeps_exactly_the_qualifying_rows Demo.pandas Demo.clock Demo.wandb Demo.disk
           (Demo.args "sample.csv:latest" 50 500) initial Demo.clean_sample
           demo_cleaned_output).
Defined.

(** The listing priced 100 under a lower threshold of 100. *)
Lemma demo_cleaned_from_100 :
  @cleaned_output Demo.pandas Demo.clock Demo.wandb Demo.disk
    (Demo.args "sample.csv:latest" 100 500) initial Demo.clean_sample.
Proof.
  split_and!; [vm_compute; reflexivity..|].
  eexists. split; vm_compute; reflexivity.
Defined.

Lemma rows_at_a_threshold_are_kept_witness :
  (@cleaned_output Demo.pandas Demo.clock Demo.wandb Demo.disk
     (Demo.args "sample.csv:latest" 100 500) initial Demo.clean_sample
   /\ Demo.listing (Float64 100) (-73.75) 40.75 (Text "2019-05-21") "fair" ∈ Demo.sample)
  /\ exists r',
       r' ∈ Demo.clean_sample
       /\ price r' = price (Demo.listing (Float64 100) (-73.75) 40.75 (Text "2019-05-21") "fair")
       /\ other r' = other (Demo.listing (Float64 100) (-73.75) 40.75 (Text "2019-05-21") "fair").
Proof.
  assert (Demo.listing (Float64 100) (-73.75) 40.75 (Text "2019-05-21") "fair" ∈ Demo.sample)
    as Hin by (unfold Demo.sample; right; left).
  split; [split; [exact demo_cleaned_from_100 | exact Hin]|].
  exact (@rows_at_a_threshold_are_kept Demo.pandas Demo.clock Demo.wandb Demo.disk
           (Demo.args "sample.csv:latest" 100 500) initial Demo.clean_sample
           Demo.sample 100 500 _
           demo_cleaned_from_100 eq_refl eq_refl eq_refl eq_refl Hin
           (or_introl eq_refl) eq_refl).
Defined.

(** No [--min_price]: the run completes and the table is empty. *)
Lemma demo_cleaned_no_min_price :
  @cleaned_output Demo.pandas Demo.clock Demo.wandb Demo.disk Demo.args_no_min_price initial [].
Proof.
  split_and!; [vm_compute; reflexivity..|].
  eexists. split; vm_compute; reflexivity.
Defined.

Lemma omitted_threshold_empties_the_output_witness :
  (min_price Demo.args_no_min_price = None \/ max_price Demo.args_no_min_price = None)
  /\ @cleaned_output Demo.pandas Demo.clock Demo.wandb Demo.disk Demo.args_no_min_price initial []
  /\ @nil Row = [].
Proof.
  split; [left; reflexivity|]. split; [exact demo_cleaned_no_min_price|].
  exact (@omitted_threshold_empties_the_output Demo.pandas Demo.clock Demo.wandb Demo.disk
           Demo.args_no_min_price initial [] (or_introl eq_refl)
           demo_cleaned_no_min_price).
Defined.

(** No [--output_artifact]: the table is written, then [wandb.Artifact]
    raises on the missing name, and nothing is published. *)
Lemma failed_run_publishes_nothing_witness :
  (@go Demo.pandas Demo.clock Demo.wandb Demo.disk
     Demo.args_no_output_artifact initial).1
  = Raise TypeError
  /\ logged (@go Demo.pandas Demo.clock Demo.wandb Demo.disk
               Demo.args_no_output_artifact initial).2 = logged initial
  /\ ((((exists ref, TypeError = ArtifactNotFound ref)
        \/ (exists path, TypeError = ReadError path)
        \/ (exists t, TypeError = DateParseError t))
       /\ fs (@go Demo.pandas Demo.clock Demo.wandb Demo.disk
                Demo.args_no_output_artifact initial).2 = fs initial)
      \/ (((TypeError = TypeError
            /\ output_artifact Demo.args_no_output_artifact = None)
           \/ (exists name,
                 TypeError = ValueError name
                 /\ output_artifact Demo.args_no_output_artifact = Some name)
           \/ TypeError = UploadError)
          /\ exists out,
               fs (@go Demo.pandas Demo.clock Demo.wandb Demo.disk
                     Demo.args_no_output_artifact initial).2
               = <["clean_sample.csv" := out]> (fs initial)))
  /\ (forall path, TypeError <> FileNotFoundError path).
Proof.
  assert ((@go Demo.pandas Demo.clock Demo.wandb Demo.disk
             Demo.args_no_output_artifact initial).1
          = Raise TypeError) as Hraise
    by (vm_compute; reflexivity).
  split; [exact Hraise|].
  exact (@failed_run_publishes_nothing Demo.pandas Demo.clock Demo.wandb Demo.disk
           Demo.args_no_output_artifact initial _ Hraise).
Defined.

Lemma run_without_output_name_never_completes_witness :
  output_artifact Demo.args_no_output_artifact = None
  /\ exists e,
       (@go Demo.pandas Demo.clock Demo.wandb Demo.disk
          Demo.args_no_output_artifact initial).1 = Raise e
       /\ logged (@go Demo.pandas Demo.clock Demo.wandb Demo.disk
                    Demo.args_no_output_artifact initial).2 = logged initial
       /\ ((e = TypeError
            /\ exists out,
                 fs (@go Demo.pandas Demo.clock Demo.wandb Demo.disk
                       Demo.args_no_output_artifact initial).2
                 = <["clean_sample.csv" := out]> (fs initial))
           \/ (e <> TypeError
               /\ fs (@go Demo.pandas Demo.clock Demo.wandb Demo.disk
                        Demo.args_no_output_artifact initial).2 = fs initial)).
Proof.
  split; [reflexivity|].
  exact (@run_without_output_name_never_completes
           Demo.pandas Demo.clock Demo.wandb Demo.disk
           Demo.args_no_output_artifact initial eq_refl).
Defined.

(** The table the failed run leaves behind. *)
Example artifact_refused_after_the_write :
  fs (@go Demo.pandas Demo.clock Demo.wandb Demo.disk
        Demo.args_no_output_artifact initial).2 !! "clean_sample.csv"
  = Some Demo.clean_sample
  /\ fst <$> @main Demo.python Demo.pandas Demo.clock Demo.wandb Demo.disk
       [ "--input_artifact"; "sample.csv:latest";
         "--output_type"; "clean_sample";
         "--min_price"; "50";
         "--max_price"; "500" ] initial
     = Some 1%Z.
Proof. split; vm_compute; reflexivity. Qed.

(** The dirty table and the repaired one differ in a row priced 150:
    under thresholds 50 and 120 the two runs end alike. *)
Lemma rows_outside_the_price_range_are_without_effect_witness :
  (@loaded Demo.wandb Demo.disk (Demo.args "dirty.csv:latest" 50 120)
   = Some Demo.dirty_sample
   /\ @loaded Demo.wandb Demo.repaired_disk (Demo.args "dirty.csv:latest" 50 120)
      = Some Demo.repaired_sample
   /\ filter (fun r => in_price_range (Demo.args "dirty.csv:latest" 50 120) r)
        Demo.dirty_sample
      = filter (fun r => in_price_range (Demo.args "dirty.csv:latest" 50 120) r)
          Demo.repaired_sample)
  /\ @go Demo.pandas Demo.clock Demo.wandb Demo.disk
       (Demo.args "dirty.csv:latest" 50 120) initial
     = @go Demo.pandas Demo.clock Demo.wandb Demo.repaired_disk
         (Demo.args "dirty.csv:latest" 50 120) initial.
Proof.
  assert (filter (fun r => in_price_range (Demo.args "dirty.csv:latest" 50 120) r)
            Demo.dirty_sample
          = filter (fun r => in_price_range (Demo.args "dirty.csv:latest" 50 120) r)
              Demo.repaired_sample) as Hsame
    by (vm_compute; reflexivity).
  split; [split_and!; [reflexivity | reflexivity | exact Hsame]|].
  exact (@rows_outside_the_price_range_are_without_effect
           Demo.pandas Demo.clock Demo.wandb Demo.disk Demo.repaired_disk
           (Demo.args "dirty.csv:latest" 50 120) initial
           Demo.dirty_sample Demo.repaired_sample eq_refl eq_refl Hsame).
Defined.

(** The bad date sits in a row priced 150: thresholds that drop the row
    let the stage through, thresholds that keep it do not. *)
Example bad_date_matters_only_in_price_range :
  (@go Demo.pandas Demo.clock Demo.wandb Demo.disk
     (Demo.args "dirty.csv:latest" 50 120) initial).1 = Ok tt
  /\ (@go Demo.pandas Demo.clock Demo.wandb Demo.disk
        (Demo.args "dirty.csv:latest" 50 150) initial).1
     = Raise (DateParseError "not a date").
Proof. split; vm_compute; reflexivity. Qed.

Lemma completed_run_footprint_witness :
  @cleaned_output Demo.pandas Demo.clock Demo.wandb Demo.disk
    (Demo.args "sample.csv:latest" 50 500) initial Demo.clean_sample
  /\ (@go Demo.pandas Demo.clock Demo.wandb Demo.disk
        (Demo.args "sample.csv:latest" 50 500) initial).2
     = {| job_type := Some "basic_cleaning";
          run_config := Some (Demo.args "sample.csv:latest" 50 500);
          fs := <["clean_sample.csv" := Demo.clean_sample]> (fs initial);
          logged :=
            logged initial
            ++ [ {| art_name := output_artifact (Demo.args "sample.csv:latest" 50 500);
                    art_type := output_type (Demo.args "sample.csv:latest" 50 500);
                    art_description :=
                      output_description (Demo.args "sample.csv:latest" 50 500);
                    art_files := [("clean_sample.csv", Demo.clean_sample)] |} ] |}.
Proof.
  split; [exact demo_cleaned_output|].
  exact (@completed_run_footprint Demo.pandas Demo.clock Demo.wandb Demo.disk
           (Demo.args "sample.csv:latest" 50 500) initial Demo.clean_sample
           demo_cleaned_output).
Defined.

(** [--min_price] twice, around another option: the second value counts. *)
Lemma last_given_value_is_stored_witness :
  Forall (@well_given Demo.python)
    ([ (add_argument "--min_price" TFloat "Minimum price value to filter the dataset",
        "50") ]
     ++ (add_argument "--min_price" TFloat "Minimum price value to filter the dataset",
         "60")
        :: [ (add_argument "--output_type" TStr
                "Type of the output artifact (e.g., 'clean_sample')",
              "clean_sample") ])
  /\ exists ns,
       @parse_args Demo.python
         (argv_of
            ([ (add_argument "--min_price" TFloat
                  "Minimum price value to filter the dataset", "50") ]
             ++ (add_argument "--min_price" TFloat
                   "Minimum price value to filter the dataset", "60")
                :: [ (add_argument "--output_type" TStr
                        "Type of the output artifact (e.g., 'clean_sample')",
                      "clean_sample") ]))
       = Some (Parsed ns)
       /\ getattr ns
            (dest (add_argument "--min_price" TFloat
                     "Minimum price value to filter the dataset"))
          = Some (AFloat 60).
Proof.
  assert (Forall (@well_given Demo.python)
            ([ (add_argument "--min_price" TFloat
                  "Minimum price value to filter the dataset", "50") ]
             ++ (add_argument "--min_price" TFloat
                   "Minimum price value to filter the dataset", "60")
                :: [ (add_argument "--output_type" TStr
                        "Type of the output artifact (e.g., 'clean_sample')",
                      "clean_sample") ])) as Hg.
  { cbn [app].
    apply Forall_cons; split;
      [|apply Forall_cons; split; [|apply Forall_cons; split; [|by apply Forall_nil]]];
      (split; [|split]); cbn [fst snd]; try reflexivity.
    - unfold parser. do 4 right. left.
    - eexists. vm_compute. reflexivity.
    - unfold parser. do 4 right. left.
    - eexists. vm_compute. reflexivity.
    - unfold parser. do 2 right. left.
    - eexists. reflexivity. }
  split; [exact Hg|].
  refine (@last_given_value_is_stored Demo.python _ _ "60" _ (AFloat 60) Hg _ _).
  - cbn. rewrite elem_of_cons, elem_of_nil. intros [[=]|[]].
  - vm_compute. reflexivity.
Defined.

Lemma parse_args_exit_status_witness :
  forallb (in_fragment parser) ["--min_price"; "50"; "--help"] = true
  /\ ((exists ns, @parse_args Demo.python ["--min_price"; "50"; "--help"]
                  = Some (Parsed ns))
      \/ @parse_args Demo.python ["--min_price"; "50"; "--help"] = Some (SystemExit 2)
      \/ (@parse_args Demo.python ["--min_price"; "50"; "--help"] = Some (SystemExit 0)
          /\ ("-h" ∈ ["--min_price"; "50"; "--help"]
              \/ "--help" ∈ ["--min_price"; "50"; "--help"]))).
Proof.
  split; [reflexivity|].
  exact (@parse_args_exit_status Demo.python ["--min_price"; "50"; "--help"] eq_refl).
Defined.
